(** * pushr: the chat front end of a browser-automation agent

    A shallow embedding of the two source files of the repository:

    - [utils/browserAgentService.ts], the REST client
      ([BrowserAgentService]: [runTask], [createTask], [getTaskStatus],
      [cancelTask], [combineResults]);
    - [frontend/src/app/page.tsx], the React component [Home] that owns the
      conversation (message list, input buffer, loading flag, task id,
      browser toggle) and drives the client.

    Strings are byte strings holding the UTF-8 encoding of the JavaScript
    text (the source files are UTF-8; a JavaScript string with a lone
    surrogate has no image here).  A [number] that counts steps is a [Z].
    An optional property ([x?: T]) is an [option]. *)

From Stdlib Require Import String Ascii List ZArith Bool Arith Lia DecimalString.
Import ListNotations.
Local Open Scope string_scope.

(* ===================================================================== *)
(** ** JavaScript primitives used by the two files *)
(* ===================================================================== *)

Module JS.

(** Truthiness of a string: every string but the empty one. *)
Definition truthy (s : string) : bool :=
  match s with
  | EmptyString => false
  | String _ _ => true
  end.

(** Truthiness of an optional string property: [undefined] is falsy. *)
Definition truthyOpt (o : option string) : bool :=
  match o with
  | Some s => truthy s
  | None => false
  end.

(** [a || b] on strings. *)
Definition orElse (a b : string) : string :=
  if truthy a then a else b.

(** [o || b] where [o] is an optional string property. *)
Definition orElseOpt (o : option string) (b : string) : string :=
  match o with
  | Some s => orElse s b
  | None => b
  end.

(** [o || d] where [o] is an optional number: [undefined] and [0] are
    falsy. *)
Definition orElseNum (o : option Z) (d : Z) : Z :=
  match o with
  | Some n => if Z.eqb n 0 then d else n
  | None => d
  end.

(** [o !== false] on an optional boolean. *)
Definition notFalse (o : option bool) : bool :=
  match o with
  | Some false => false
  | _ => true
  end.

(** The line feed character and the separator ["\n\n"]. *)
Definition LF : ascii := "010"%char.
Definition blankLine : string := String LF (String LF EmptyString).

(** [Array.prototype.join]: the elements separated by [sep]; the empty
    array gives the empty string. *)
Fixpoint join (sep : string) (l : list string) : string :=
  match l with
  | [] => ""
  | [x] => x
  | x :: (_ :: _) as rest => x ++ sep ++ join sep rest
  end.

(** The characters [String.prototype.trim] removes (ECMAScript
    WhiteSpace and LineTerminator), each in its UTF-8 encoding. *)
Definition b1 (a : ascii) : string := String a EmptyString.
Definition b2 (a b : ascii) : string := String a (b1 b).
Definition b3 (a b c : ascii) : string := String a (b2 b c).

Definition whiteSpace : list string :=
  [ b1 "009"; b1 "010"; b1 "011"; b1 "012"; b1 "013"; b1 "032";  (* TAB LF VT FF CR SP *)
    b2 "194" "160";                                             (* U+00A0 *)
    b3 "225" "154" "128";                                       (* U+1680 *)
    b3 "226" "128" "128"; b3 "226" "128" "129"; b3 "226" "128" "130";
    b3 "226" "128" "131"; b3 "226" "128" "132"; b3 "226" "128" "133";
    b3 "226" "128" "134"; b3 "226" "128" "135"; b3 "226" "128" "136";
    b3 "226" "128" "137"; b3 "226" "128" "138";                 (* U+2000..U+200A *)
    b3 "226" "128" "168"; b3 "226" "128" "169";                 (* U+2028 U+2029 *)
    b3 "226" "128" "175";                                       (* U+202F *)
    b3 "226" "129" "159";                                       (* U+205F *)
    b3 "227" "128" "128";                                       (* U+3000 *)
    b3 "239" "187" "191" ]%char.                                (* U+FEFF *)

Definition isWhiteSpace (c : string) : bool :=
  existsb (String.eqb c) whiteSpace.

(** Removal of the leading white space. *)
Fixpoint trimStart (s : string) : string :=
  match s with
  | EmptyString => EmptyString
  | String a r1 =>
      if isWhiteSpace (b1 a) then trimStart r1
      else match r1 with
           | EmptyString => s
           | String b r2 =>
               if isWhiteSpace (b2 a b) then trimStart r2
               else match r2 with
                    | EmptyString => s
                    | String c r3 =>
                        if isWhiteSpace (b3 a b c) then trimStart r3 else s
                    end
           end
  end.

Fixpoint rev (s : string) : string :=
  match s with
  | EmptyString => EmptyString
  | String a r => rev r ++ b1 a
  end.

(** The same from the end: the last character of a UTF-8 text is read
    backwards, continuation bytes first. *)
Fixpoint trimStartRev (s : string) : string :=
  match s with
  | EmptyString => EmptyString
  | String c r1 =>
      if isWhiteSpace (b1 c) then trimStartRev r1
      else match r1 with
           | EmptyString => s
           | String b r2 =>
               if isWhiteSpace (b2 b c) then trimStartRev r2
               else match r2 with
                    | EmptyString => s
                    | String a r3 =>
                        if isWhiteSpace (b3 a b c) then trimStartRev r3 else s
                    end
           end
  end.

Definition trimEnd (s : string) : string := rev (trimStartRev (rev s)).

(** [String.prototype.trim]. *)
Definition trim (s : string) : string := trimEnd (trimStart s).

(** A text made of white space only (the empty text included). *)
Inductive blank : string -> Prop :=
| blank_nil : blank ""
| blank_cons c s : In c whiteSpace -> blank s -> blank (c ++ s).

(** [n.toString()] for a non-negative integer, in decimal. *)
Definition decimal (n : N) : string :=
  NilEmpty.string_of_uint (N.to_uint n).

End JS.

(* ===================================================================== *)
(** ** Data of [browserAgentService.ts] *)
(* ===================================================================== *)

(** [interface RunRequest], as the body [runTask] posts (every field is
    present in the posted object). *)
Record RunRequest := {
  run_task : string;
  run_headless : bool;
  run_model : string;
  run_provider : string;
  run_max_steps : Z
}.

(** [interface TaskRequest], as the body [createTask] posts. *)
Record TaskRequest := {
  req_task : string;
  req_headless : bool;
  req_model : string;
  req_provider : string;
  req_max_steps : Z;
  req_use_vision : bool
}.

(** The argument [options] of [runTask] and [createTask]. *)
Record Options := {
  model : option string;
  provider : option string;
  max_steps : option Z;
  use_vision : option bool
}.

Definition noOptions : Options :=
  {| model := None; provider := None; max_steps := None; use_vision := None |}.

(** An element of [TaskResult['results']]. *)
Record StepResult := {
  content : option string;
  error : option string;
  url : option string;
  title : option string
}.

(** [interface TaskResult].  [results] is an [option]: [combineResults]
    tests it for absence. *)
Record TaskResult := {
  task_id : string;
  status : string;
  steps : Z;
  results : option (list StepResult);
  task_error : option string
}.

(** ** Data of [page.tsx] *)

Inductive MessageType := user | assistant | system.

Record Message := {
  type : MessageType;
  msg_content : string;
  timestamp : N;
  id : string
}.

(** The [useState] cells of [Home]. *)
Record State := {
  task : string;
  messages : list Message;
  loading : bool;
  taskId : option string;          (* [string | null] *)
  showBrowser : bool
}.

(* ===================================================================== *)
(** ** The world the code runs in *)
(* ===================================================================== *)

(** Response bodies of the remote service. *)
Record RunResponse := { result : string }.
Record TaskResponse := {
  resp_task_id : string;
  resp_status : string;
  resp_message : string
}.
Record CancelResponse := { cancel_status : string; cancel_task_id : string }.

(** The HTTP requests the client issues, with what each one carries:
    [POST /run], [POST /task], [GET /task/{id}], [DELETE /task/{id}]. *)
Inductive Request :=
| PostRun (body : RunRequest)
| PostTask (body : TaskRequest)
| GetTask (tid : string)
| DeleteTask (tid : string).

(** The remote service as the client sees it: the requests issued so
    far (oldest first) and, per end point, the replies still to come.
    [None] is a request that axios rejects (transport failure or a
    non-2xx status); a service with no reply left rejects too. *)
Record Network := {
  requests : list Request;
  runReplies : list (option RunResponse);
  taskReplies : list (option TaskResponse);
  statusReplies : list (option TaskResult);
  cancelReplies : list (option CancelResponse)
}.

(** A timer created by [setInterval] in [handleRunWithVisibleBrowser]:
    its handle and the two variables its callback closes over. *)
Record Interval := {
  handle : nat;
  newTaskId : string;
  loadingMsgId : string
}.

(** The browser: the active interval timers, the next timer handle, and
    what [addMessage] reads from it: [Date.now()] and [Math.random()]
    for the identifier and [new Date()] for the timestamp (the [k]-th
    draw of each; [draws] counts the draws made). *)
Record Runtime := {
  intervals : list Interval;
  nextHandle : nat;
  draws : nat;
  clock : nat -> N;
  random : nat -> string;
  dates : nat -> N
}.

Record World := {
  ui : State;
  rt : Runtime;
  net : Network
}.

Definition withUi (f : State -> State) (w : World) : World :=
  {| ui := f (ui w); rt := rt w; net := net w |}.
Definition withRt (f : Runtime -> Runtime) (w : World) : World :=
  {| ui := ui w; rt := f (rt w); net := net w |}.
Definition withNet (f : Network -> Network) (w : World) : World :=
  {| ui := ui w; rt := rt w; net := f (net w) |}.

(** ** Computations: a state monad in which an exception keeps the state *)

Inductive Result (A : Type) :=
| Ok (a : A)
| Throw (e : string).
Arguments Ok {A} a.
Arguments Throw {A} e.

Definition M (A : Type) : Type := World -> Result A * World.

Definition ret {A} (a : A) : M A := fun w => (Ok a, w).

Definition bind {A B} (c : M A) (k : A -> M B) : M B :=
  fun w =>
    match c w with
    | (Ok a, w1) => k a w1
    | (Throw e, w1) => (Throw e, w1)
    end.

Definition throw {A} (e : string) : M A := fun w => (Throw e, w).

(** [try { c } catch (error) { h error }]. *)
Definition tryCatch {A} (c : M A) (h : string -> M A) : M A :=
  fun w =>
    match c w with
    | (Ok a, w1) => (Ok a, w1)
    | (Throw e, w1) => h e w1
    end.

(** [try { c } finally { f }], for an [f] that does not throw. *)
Definition tryFinally {A} (c : M A) (f : M unit) : M A :=
  fun w =>
    match c w with
    | (r, w1) => (r, snd (f w1))
    end.

Declare Scope js_scope.
Delimit Scope js_scope with js.
Notation "x <- c ;; k" := (bind c (fun x => k))
  (at level 61, c at next level, right associativity) : js_scope.
Notation "c ;; k" := (bind c (fun _ => k))
  (at level 61, right associativity) : js_scope.
Local Open Scope js_scope.

Definition read {A} (f : World -> A) : M A := fun w => (Ok (f w), w).
Definition update (f : World -> World) : M unit := fun w => (Ok tt, f w).

(** The head of a list of replies, and what is left of the list. *)
Definition nextReply {A} (l : list (option A)) : option A :=
  match l with
  | Some a :: _ => Some a
  | _ => None
  end.

Definition logRequest (r : Request) (n : Network) : Network :=
  {| requests := requests n ++ [r]; runReplies := runReplies n;
     taskReplies := taskReplies n; statusReplies := statusReplies n;
     cancelReplies := cancelReplies n |}.

(** An axios call: the request is recorded and the next reply of its
    end point ([replies]) is consumed ([rest] drops it); a rejection is
    thrown. *)
Definition axios {A} (r : Request) (replies : Network -> list (option A))
    (rest : Network -> Network) : M A :=
  fun w =>
    let w1 := withNet (fun n => rest (logRequest r n)) w in
    match nextReply (replies (net w)) with
    | Some a => (Ok a, w1)
    | None => (Throw "AxiosError", w1)
    end.

Definition dropRun (n : Network) : Network :=
  {| requests := requests n; runReplies := tl (runReplies n);
     taskReplies := taskReplies n; statusReplies := statusReplies n;
     cancelReplies := cancelReplies n |}.
Definition dropTask (n : Network) : Network :=
  {| requests := requests n; runReplies := runReplies n;
     taskReplies := tl (taskReplies n); statusReplies := statusReplies n;
     cancelReplies := cancelReplies n |}.
Definition dropStatus (n : Network) : Network :=
  {| requests := requests n; runReplies := runReplies n;
     taskReplies := taskReplies n; statusReplies := tl (statusReplies n);
     cancelReplies := cancelReplies n |}.
Definition dropCancel (n : Network) : Network :=
  {| requests := requests n; runReplies := runReplies n;
     taskReplies := taskReplies n; statusReplies := statusReplies n;
     cancelReplies := tl (cancelReplies n) |}.

(* ===================================================================== *)
(** ** [browserAgentService.ts] *)
(* ===================================================================== *)

Module BrowserAgentService.

(** [static async runTask(task, headless = true, options = {})].
    The [console.error] of the catch block writes to the console only
    and is left out, here and below. *)
Definition runTask (task : string) (headless : bool) (options : Options)
    : M string :=
  tryCatch
    (response <- axios
        (PostRun {| run_task := task;
                    run_headless := headless;
                    run_model := JS.orElseOpt (model options) "gpt-4.1-nano-2025-04-14";
                    run_provider := JS.orElseOpt (provider options) "openai";
                    run_max_steps := JS.orElseNum (max_steps options) 5 |})
        runReplies dropRun ;;
     ret (result response))
    (fun _ => throw "Ошибка при выполнении задачи").

(** [static async createTask(task, headless = false, options = {})]. *)
Definition createTask (task : string) (headless : bool) (options : Options)
    : M string :=
  tryCatch
    (response <- axios
        (PostTask {| req_task := task;
                     req_headless := headless;
                     req_model := JS.orElseOpt (model options) "gpt-4.1-nano-2025-04-14";
                     req_provider := JS.orElseOpt (provider options) "openai";
                     req_max_steps := JS.orElseNum (max_steps options) 5;
                     req_use_vision := JS.notFalse (use_vision options) |})
        taskReplies dropTask ;;
     ret (resp_task_id response))
    (fun _ => throw "Ошибка при создании задачи").

(** [static async getTaskStatus(taskId)]. *)
Definition getTaskStatus (taskId : string) : M TaskResult :=
  tryCatch
    (response <- axios (GetTask taskId) statusReplies dropStatus ;;
     ret response)
    (fun _ => throw "Ошибка при получении статуса задачи").

(** [static async cancelTask(taskId)]. *)
Definition cancelTask (taskId : string) : M CancelResponse :=
  tryCatch
    (response <- axios (DeleteTask taskId) cancelReplies dropCancel ;;
     ret response)
    (fun _ => throw "Ошибка при отмене задачи").

(** The [content] a step contributes to the joined text: [join] prints
    an [undefined] element as the empty string. *)
Definition contentOf (step : StepResult) : string :=
  match content step with
  | Some c => c
  | None => ""
  end.

(** [static combineResults(results)]. *)
Definition combineResults (results : option (list StepResult)) : string :=
  match results with
  | None => "Нет результатов"
  | Some [] => "Нет результатов"
  | Some l =>
      JS.join JS.blankLine
        (map contentOf (filter (fun step => JS.truthyOpt (content step)) l))
  end.

End BrowserAgentService.

(* ===================================================================== *)
(** ** [page.tsx]: the component [Home] *)
(* ===================================================================== *)

Module Home.

Import BrowserAgentService.

(** The state setters of [useState]. *)
Definition setTask (v : string) : M unit :=
  update (withUi (fun s =>
    {| task := v; messages := messages s; loading := loading s;
       taskId := taskId s; showBrowser := showBrowser s |})).

(** [setMessages(prev => f prev)]. *)
Definition setMessages (f : list Message -> list Message) : M unit :=
  update (withUi (fun s =>
    {| task := task s; messages := f (messages s); loading := loading s;
       taskId := taskId s; showBrowser := showBrowser s |})).

Definition setLoading (v : bool) : M unit :=
  update (withUi (fun s =>
    {| task := task s; messages := messages s; loading := v;
       taskId := taskId s; showBrowser := showBrowser s |})).

Definition setTaskId (v : option string) : M unit :=
  update (withUi (fun s =>
    {| task := task s; messages := messages s; loading := loading s;
       taskId := v; showBrowser := showBrowser s |})).

Definition setShowBrowser (v : bool) : M unit :=
  update (withUi (fun s =>
    {| task := task s; messages := messages s; loading := loading s;
       taskId := taskId s; showBrowser := v |})).

(** The identifier built by [addMessage]:
    [`msg-${Date.now()}-${Math.random().toString(36).substr(2, 9)}`],
    where [rnd] stands for the nine characters kept of the random
    number. *)
Definition msgId (now : N) (rnd : string) : string :=
  "msg-" ++ JS.decimal now ++ "-" ++ rnd.

(** One draw of the clock, of the random source and of the date. *)
Definition draw : M nat :=
  fun w =>
    (Ok (draws (rt w)),
     withRt (fun r =>
       {| intervals := intervals r; nextHandle := nextHandle r;
          draws := S (draws r); clock := clock r; random := random r; dates := dates r |}) w).

(** [const addMessage = (content, type) => { ... return id; }]: the
    identifier is built first, the timestamp is the [new Date()] taken
    when the message is put in the list. *)
Definition addMessage (content : string) (type : MessageType) : M string :=
  k <- draw ;;
  r <- read rt ;;
  let id := msgId (clock r k) (random r k) in
  setMessages (fun prev =>
    (prev ++ [ {| type := type; msg_content := content;
                  timestamp := dates r k; id := id |} ])%list) ;;
  ret id.

(** [const removeMessage = (id) => setMessages(prev => prev.filter(msg => msg.id !== id))]. *)
Definition removeMessage (i : string) : M unit :=
  setMessages (filter (fun msg => negb (String.eqb (id msg) i))).

(** [setInterval(callback, 2000)]: the callback is the one closure of
    [handleRunWithVisibleBrowser], kept by the variables it captures. *)
Definition setInterval (newTaskId loadingMsgId : string) : M nat :=
  fun w =>
    let h := nextHandle (rt w) in
    (Ok h,
     withRt (fun r =>
       {| intervals := intervals r ++
            [ {| handle := h; newTaskId := newTaskId;
                 loadingMsgId := loadingMsgId |} ];
          nextHandle := S h;
          draws := draws r; clock := clock r; random := random r; dates := dates r |}) w).

(** [clearInterval(interval)]. *)
Definition clearInterval (h : nat) : M unit :=
  update (withRt (fun r =>
    {| intervals := filter (fun t => negb (Nat.eqb (handle t) h)) (intervals r);
       nextHandle := nextHandle r;
       draws := draws r; clock := clock r; random := random r; dates := dates r |})).

(** [const handleRun = async () => { ... }]. *)
Definition handleRun : M unit :=
  task <- read (fun w => task (ui w)) ;;
  showBrowser <- read (fun w => showBrowser (ui w)) ;;
  if negb (JS.truthy (JS.trim task)) then ret tt
  else
    addMessage task user ;;
    setLoading true ;;
    loadingMsgId <- addMessage "Выполняю задачу..." system ;;
    tryFinally
      (tryCatch
         (result <- runTask task (negb showBrowser) noOptions ;;
          removeMessage loadingMsgId ;;
          addMessage result assistant ;;
          setTask "")
         (fun _ =>
            removeMessage loadingMsgId ;;
            addMessage "Ошибка при выполнении задачи" system ;;
            ret tt))
      (setLoading false).

(** [taskResult.status === "completed" || taskResult.status === "failed"]. *)
Definition terminal (status : string) : bool :=
  String.eqb status "completed" || String.eqb status "failed".

(** The callback given to [setInterval], for the timer [t]. *)
Definition pollStatus (t : Interval) : M unit :=
  tryCatch
    (taskResult <- getTaskStatus (newTaskId t) ;;
     if terminal (status taskResult) then
       clearInterval (handle t) ;;
       removeMessage (loadingMsgId t) ;;
       let combinedResult := combineResults (results taskResult) in
       addMessage
         (JS.orElse combinedResult
            (JS.orElseOpt (task_error taskResult)
               "Задача выполнена без результатов"))
         assistant ;;
       setLoading false ;;
       setTaskId None ;;
       setTask ""
     else ret tt)
    (fun _ =>
       clearInterval (handle t) ;;
       removeMessage (loadingMsgId t) ;;
       addMessage "Ошибка при проверке статуса задачи" system ;;
       setLoading false ;;
       setTaskId None).

(** [const handleRunWithVisibleBrowser = async () => { ... }]. *)
Definition handleRunWithVisibleBrowser : M unit :=
  task <- read (fun w => task (ui w)) ;;
  if negb (JS.truthy (JS.trim task)) then ret tt
  else
    addMessage task user ;;
    setLoading true ;;
    loadingMsgId <- addMessage "Открываю браузер и выполняю задачу..." system ;;
    tryCatch
      (newTaskId <- createTask task false
         {| model := None; provider := None; max_steps := Some 5%Z;
            use_vision := None |} ;;
       setTaskId (Some newTaskId) ;;
       setInterval newTaskId loadingMsgId ;;
       ret tt)
      (fun _ =>
         removeMessage loadingMsgId ;;
         addMessage "Ошибка при запуске задачи" system ;;
         setLoading false).

(** [const handleCancel = async () => { ... }]. *)
Definition handleCancel : M unit :=
  taskId <- read (fun w => taskId (ui w)) ;;
  match taskId with
  | None => ret tt
  | Some tid =>
      if negb (JS.truthy tid) then ret tt
      else
        tryCatch
          (cancelTask tid ;;
           addMessage "Задача отменена" system ;;
           setTaskId None ;;
           setLoading false)
          (fun _ =>
             addMessage "Ошибка при отмене задачи" system ;;
             ret tt)
  end.

(** [const handleKeyDown = (e) => { ... }], for the key [key] and the
    state of the shift key. *)
Definition handleKeyDown (key : string) (shiftKey : bool) : M unit :=
  if String.eqb key "Enter" && negb shiftKey then
    showBrowser <- read (fun w => showBrowser (ui w)) ;;
    if showBrowser then handleRunWithVisibleBrowser else handleRun
  else ret tt.

(** [const toggleBrowserMode = () => setShowBrowser(!showBrowser)]. *)
Definition toggleBrowserMode : M unit :=
  showBrowser <- read (fun w => showBrowser (ui w)) ;;
  setShowBrowser (negb showBrowser).

(** *** What the rendered view lets happen

    The textarea is [disabled={loading}]; the run button is
    [disabled={loading || !task.trim()}] and calls the handler chosen
    by [showBrowser]; the cancel button exists only when
    [loading && taskId]; a timer fires only while it is active. *)
Inductive Event :=
| Change (value : string)          (* onChange of the textarea *)
| KeyDown (key : string) (shiftKey : bool)
| ClickToggle
| ClickRun
| ClickCancel
| TimerFires (h : nat).

Definition taskIdTruthy (s : State) : bool :=
  match taskId s with
  | Some tid => JS.truthy tid
  | None => false
  end.

(** An event of the view handled to the end of its handler, with the
    reply of its request and no other event in between. *)
Definition dispatch (e : Event) : M unit :=
  s <- read ui ;;
  match e with
  | Change value => if loading s then ret tt else setTask value
  | KeyDown key shiftKey =>
      if loading s then ret tt else handleKeyDown key shiftKey
  | ClickToggle => toggleBrowserMode
  | ClickRun =>
      if loading s || negb (JS.truthy (JS.trim (task s))) then ret tt
      else if showBrowser s then handleRunWithVisibleBrowser else handleRun
  | ClickCancel =>
      if loading s && taskIdTruthy s then handleCancel else ret tt
  | TimerFires h =>
      r <- read rt ;;
      match find (fun t => Nat.eqb (handle t) h) (intervals r) with
      | Some t => pollStatus t
      | None => ret tt
      end
  end.

(** *** The handlers cut at their [await]

    Each of the four handlers is an [async] function with one [await].
    Up to the [await] it runs without interruption and its request goes
    out; what follows runs when the reply arrives, and other events of
    the view may come first. *)

(** Calling an operation of the client: the request goes out and the
    service fixes its answer; the promise keeps the outcome until it is
    awaited. *)
Definition call {A} (c : M A) : M (Result A) :=
  fun w => match c w with (r, w1) => (Ok r, w1) end.

(** [await] of a promise settled with [outcome]. *)
Definition settle {A} (outcome : Result A) : M A := fun w => (outcome, w).

(** A handler suspended at its [await], with the variables the rest of
    it uses and the outcome its promise will have. *)
Inductive Pending :=
| AwaitRun (loadingMsgId : string) (outcome : Result string)
    (* [handleRun], line 61 *)
| AwaitCreate (loadingMsgId : string) (outcome : Result string)
    (* [handleRunWithVisibleBrowser], line 96 *)
| AwaitStatus (t : Interval) (outcome : Result TaskResult)
    (* the callback of [setInterval], line 103 *)
| AwaitCancel (outcome : Result CancelResponse).
    (* [handleCancel], line 148 *)

(** [handleRun] up to [await BrowserAgentService.runTask(...)]. *)
Definition handleRun_begin : M (option Pending) :=
  task <- read (fun w => task (ui w)) ;;
  showBrowser <- read (fun w => showBrowser (ui w)) ;;
  if negb (JS.truthy (JS.trim task)) then ret None
  else
    addMessage task user ;;
    setLoading true ;;
    loadingMsgId <- addMessage "Выполняю задачу..." system ;;
    outcome <- call (runTask task (negb showBrowser) noOptions) ;;
    ret (Some (AwaitRun loadingMsgId outcome)).

(** [handleRun] from the [await] on. *)
Definition handleRun_resume (loadingMsgId : string) (outcome : Result string)
    : M unit :=
  tryFinally
    (tryCatch
       (result <- settle outcome ;;
        removeMessage loadingMsgId ;;
        addMessage result assistant ;;
        setTask "")
       (fun _ =>
          removeMessage loadingMsgId ;;
          addMessage "Ошибка при выполнении задачи" system ;;
          ret tt))
    (setLoading false).

(** [handleRunWithVisibleBrowser] up to
    [await BrowserAgentService.createTask(...)]. *)
Definition handleRunWithVisibleBrowser_begin : M (option Pending) :=
  task <- read (fun w => task (ui w)) ;;
  if negb (JS.truthy (JS.trim task)) then ret None
  else
    addMessage task user ;;
    setLoading true ;;
    loadingMsgId <- addMessage "Открываю браузер и выполняю задачу..." system ;;
    outcome <- call (createTask task false
                       {| model := None; provider := None;
                          max_steps := Some 5%Z; use_vision := None |}) ;;
    ret (Some (AwaitCreate loadingMsgId outcome)).

(** [handleRunWithVisibleBrowser] from the [await] on. *)
Definition handleRunWithVisibleBrowser_resume (loadingMsgId : string)
    (outcome : Result string) : M unit :=
  tryCatch
    (newTaskId <- settle outcome ;;
     setTaskId (Some newTaskId) ;;
     setInterval newTaskId loadingMsgId ;;
     ret tt)
    (fun _ =>
       removeMessage loadingMsgId ;;
       addMessage "Ошибка при запуске задачи" system ;;
       setLoading false).

(** The callback of the timer [t] up to
    [await BrowserAgentService.getTaskStatus(newTaskId)]. *)
Definition pollStatus_begin (t : Interval) : M (option Pending) :=
  outcome <- call (getTaskStatus (newTaskId t)) ;;
  ret (Some (AwaitStatus t outcome)).

(** The callback of the timer [t] from the [await] on. *)
Definition pollStatus_resume (t : Interval) (outcome : Result TaskResult)
    : M unit :=
  tryCatch
    (taskResult <- settle outcome ;;
     if terminal (status taskResult) then
       clearInterval (handle t) ;;
       removeMessage (loadingMsgId t) ;;
       let combinedResult := combineResults (results taskResult) in
       addMessage
         (JS.orElse combinedResult
            (JS.orElseOpt (task_error taskResult)
               "Задача выполнена без результатов"))
         assistant ;;
       setLoading false ;;
       setTaskId None ;;
       setTask ""
     else ret tt)
    (fun _ =>
       clearInterval (handle t) ;;
       removeMessage (loadingMsgId t) ;;
       addMessage "Ошибка при проверке статуса задачи" system ;;
       setLoading false ;;
       setTaskId None).

(** [handleCancel] up to [await BrowserAgentService.cancelTask(taskId)]. *)
Definition handleCancel_begin : M (option Pending) :=
  taskId <- read (fun w => taskId (ui w)) ;;
  match taskId with
  | None => ret None
  | Some tid =>
      if negb (JS.truthy tid) then ret None
      else
        outcome <- call (cancelTask tid) ;;
        ret (Some (AwaitCancel outcome))
  end.

(** [handleCancel] from the [await] on. *)
Definition handleCancel_resume (outcome : Result CancelResponse) : M unit :=
  tryCatch
    (settle outcome ;;
     addMessage "Задача отменена" system ;;
     setTaskId None ;;
     setLoading false)
    (fun _ =>
       addMessage "Ошибка при отмене задачи" system ;;
       ret tt).

(** [handleKeyDown] up to the [await] of the handler it calls. *)
Definition handleKeyDown_begin (key : string) (shiftKey : bool)
    : M (option Pending) :=
  if String.eqb key "Enter" && negb shiftKey then
    showBrowser <- read (fun w => showBrowser (ui w)) ;;
    if showBrowser then handleRunWithVisibleBrowser_begin else handleRun_begin
  else ret None.

(** The rest of a suspended handler. *)
Definition resume (c : Pending) : M unit :=
  match c with
  | AwaitRun loadingMsgId outcome => handleRun_resume loadingMsgId outcome
  | AwaitCreate loadingMsgId outcome =>
      handleRunWithVisibleBrowser_resume loadingMsgId outcome
  | AwaitStatus t outcome => pollStatus_resume t outcome
  | AwaitCancel outcome => handleCancel_resume outcome
  end.

Definition finish (p : option Pending) : M unit :=
  match p with
  | Some c => resume c
  | None => ret tt
  end.

(** An event of the view up to the [await] of the handler it starts:
    [dispatch] with the handlers cut. *)
Definition fire (e : Event) : M (option Pending) :=
  s <- read ui ;;
  match e with
  | Change value => if loading s then ret None else (setTask value ;; ret None)
  | KeyDown key shiftKey =>
      if loading s then ret None else handleKeyDown_begin key shiftKey
  | ClickToggle => toggleBrowserMode ;; ret None
  | ClickRun =>
      if loading s || negb (JS.truthy (JS.trim (task s))) then ret None
      else if showBrowser s then handleRunWithVisibleBrowser_begin
           else handleRun_begin
  | ClickCancel =>
      if loading s && taskIdTruthy s then handleCancel_begin else ret None
  | TimerFires h =>
      r <- read rt ;;
      match find (fun t => Nat.eqb (handle t) h) (intervals r) with
      | Some t => pollStatus_begin t
      | None => ret None
      end
  end.

(** The page at run time: the world and the handlers suspended at
    their [await], oldest first. *)
Record Page := {
  world : World;
  inflight : list Pending
}.

(** A page with no request in flight. *)
Definition quiet (w : World) : Page := {| world := w; inflight := [] |}.

(** What happens to a page: an event of the view, or the reply to the
    [k]-th request in flight (replies may come in any order). *)
Inductive Action :=
| Does (e : Event)
| Settles (k : nat).

Fixpoint dropNth {A} (k : nat) (l : list A) : list A :=
  match l, k with
  | [], _ => []
  | _ :: rest, O => rest
  | x :: rest, S k' => x :: dropNth k' rest
  end.

Definition act (a : Action) (p : Page) : Page :=
  match a with
  | Does e =>
      match fire e (world p) with
      | (Ok (Some c), w) => {| world := w; inflight := inflight p ++ [c] |}
      | (_, w) => {| world := w; inflight := inflight p |}
      end
  | Settles k =>
      match nth_error (inflight p) k with
      | Some c => {| world := snd (resume c (world p));
                     inflight := dropNth k (inflight p) |}
      | None => p
      end
  end.

Definition play (acts : list Action) (p : Page) : Page :=
  fold_left (fun p a => act a p) acts p.

(** The schedule in which the reply to each request arrives before the
    next event: every event is followed by the reply to the request it
    issued, if it issued one. *)
Definition sequential (es : list Event) : list Action :=
  flat_map (fun e => [Does e; Settles 0]) es.

(** One event of the view and, before anything else happens, the reply
    to the request it issued. *)
Definition step (e : Event) (w : World) : World :=
  world (act (Settles 0) (act (Does e) (quiet w))).

(** A run in which every reply arrives before the next event. *)
Definition run (es : list Event) (w : World) : World :=
  fold_left (fun w e => step e w) es w.

(** The component as first rendered, in the browser [r] and against
    the service [n]. *)
Definition initial (r : Runtime) (n : Network) : World :=
  {| ui := {| task := ""; messages := []; loading := false;
              taskId := None; showBrowser := false |};
     rt := r; net := n |}.

(** The controller is idle when no request is outstanding: the
    [loading] flag is what the view keys on. *)
Definition idle (w : World) : Prop := loading (ui w) = false.

(** The status polls issued so far. *)
Definition isStatusPoll (r : Request) : bool :=
  match r with
  | GetTask _ => true
  | _ => false
  end.

Definition statusPolls (w : World) : list Request :=
  filter isStatusPoll (requests (net w)).


(** *** The worlds the handlers lead to, named for the theorems *)

(** The identifier and the message [addMessage content type] makes at
    the [k]-th draw. *)
Definition idAt (r : Runtime) (k : nat) : string :=
  msgId (clock r k) (random r k).

Definition drawn (r : Runtime) (k : nat) (type : MessageType)
    (content : string) : Message :=
  {| type := type; msg_content := content;
     timestamp := dates r k; id := idAt r k |}.

(** [removeMessage i] on a list. *)
Definition without (i : string) (l : list Message) : list Message :=
  filter (fun msg => negb (String.eqb (id msg) i)) l.

(** The world after [handleRunWithVisibleBrowser] when the service
    creates the task [created]. *)
Definition polling (w : World) (created : TaskResponse) : World :=
  {| ui := {| task := task (ui w);
              messages := messages (ui w)
                ++ [ drawn (rt w) (draws (rt w)) user (task (ui w));
                     drawn (rt w) (S (draws (rt w))) system
                       "Открываю браузер и выполняю задачу..." ];
              loading := true;
              taskId := Some (resp_task_id created);
              showBrowser := showBrowser (ui w) |};
     rt := {| intervals := intervals (rt w)
                ++ [ {| handle := nextHandle (rt w);
                        newTaskId := resp_task_id created;
                        loadingMsgId := idAt (rt w) (S (draws (rt w))) |} ];
              nextHandle := S (nextHandle (rt w));
              draws := S (S (draws (rt w)));
              clock := clock (rt w); random := random (rt w);
              dates := dates (rt w) |};
     net := dropTask
              (logRequest
                 (PostTask {| req_task := task (ui w); req_headless := false;
                              req_model := "gpt-4.1-nano-2025-04-14";
                              req_provider := "openai"; req_max_steps := 5;
                              req_use_vision := true |})
                 (net w)) |}.

(** The world after a poll of the timer [t]. *)
Definition polled (t : Interval) (w : World) : World :=
  withNet (fun n => dropStatus (logRequest (GetTask (newTaskId t)) n)) w.

(** The world after the poll of [t] that finds the task finished. *)
Definition finished (t : Interval) (w : World) (snapshot : TaskResult)
    : World :=
  {| ui := {| task := "";
              messages := without (loadingMsgId t) (messages (ui w))
                ++ [ drawn (rt w) (draws (rt w)) assistant
                       (JS.orElse (combineResults (results snapshot))
                          (JS.orElseOpt (task_error snapshot)
                             "Задача выполнена без результатов")) ];
              loading := false;
              taskId := None;
              showBrowser := showBrowser (ui w) |};
     rt := {| intervals :=
                filter (fun t' => negb (Nat.eqb (handle t') (handle t)))
                  (intervals (rt w));
              nextHandle := nextHandle (rt w);
              draws := S (draws (rt w));
              clock := clock (rt w); random := random (rt w);
              dates := dates (rt w) |};
     net := net (polled t w) |}.

(** The component as first rendered in a browser with no timer, against
    a service that will create one task and answer [polls]. *)
Definition flow (h0 d0 : nat) (now : nat -> N) (rnd : nat -> string)
    (stamp : nat -> N) (created : TaskResponse) (polls : list (option TaskResult))
    (cancels : list (option CancelResponse)) : World :=
  initial
    {| intervals := []; nextHandle := h0; draws := d0;
       clock := now; random := rnd; dates := stamp |}
    {| requests := []; runReplies := []; taskReplies := [Some created];
       statusReplies := polls; cancelReplies := cancels |}.

(** *** The invariant of the polling loop *)

(** At most one timer is active, and none while the controller is
    idle. *)
Definition oneTimer (w : World) : Prop :=
  length (intervals (rt w)) <= 1
  /\ (loading (ui w) = false -> intervals (rt w) = []).

(** An event that is not a click on cancel which the service accepts. *)
Definition noAcceptedCancel (e : Event) (w : World) : Prop :=
  e = ClickCancel -> nextReply (cancelReplies (net w)) = None.

(** A run in which the service accepts no cancel. *)
Fixpoint cancelsRejected (es : list Event) (w : World) : Prop :=
  match es with
  | [] => True
  | e :: rest => noAcceptedCancel e w /\ cancelsRejected rest (step e w)
  end.

(** A stored task id is being polled: a timer for that task is
    active. *)
Definition polledTask (w : World) : Prop :=
  forall tid, taskId (ui w) = Some tid ->
    exists t, In t (intervals (rt w)) /\ newTaskId t = tid.

End Home.

(* ===================================================================== *)
(** ** Sample worlds, for the concrete runs below *)
(* ===================================================================== *)

Module Sample.

(** A browser whose clock advances by one at each draw. *)
Definition browser : Runtime :=
  {| intervals := []; nextHandle := 0; draws := 0;
     clock := fun k => N.of_nat (1000 + k);
     random := fun _ => "k3x9q0zpa";
     dates := fun k => N.of_nat (1001 + k) |}.

Definition service (run : list (option RunResponse))
    (create : list (option TaskResponse))
    (poll : list (option TaskResult))
    (cancel : list (option CancelResponse)) : Network :=
  {| requests := []; runReplies := run; taskReplies := create;
     statusReplies := poll; cancelReplies := cancel |}.

Definition created (tid : string) : TaskResponse :=
  {| resp_task_id := tid; resp_status := "pending"; resp_message := "" |}.

Definition snapshot (st : string) (res : list StepResult)
    (err : option string) : TaskResult :=
  {| task_id := "abc"; status := st; steps := Z.of_nat (length res);
     results := Some res; task_error := err |}.

Definition withContent (c : string) : StepResult :=
  {| content := Some c; error := None; url := None; title := None |}.

Definition noContent : StepResult :=
  {| content := None; error := None; url := None; title := None |}.

Definition cancelled : CancelResponse :=
  {| cancel_status := "cancelled"; cancel_task_id := "abc" |}.

(** The component with [text] typed in, in the mode [visible]. *)
Definition typed (text : string) (visible : bool) (n : Network) : World :=
  {| ui := {| task := text; messages := []; loading := false;
              taskId := None; showBrowser := visible |};
     rt := browser; net := n |}.

(** A sync submission the service answers with ["Example Domain"]. *)
Definition answered : World :=
  typed "open example.com" false
    (service [Some {| result := "Example Domain" |}] [] [] []).

(** A sync submission the service rejects. *)
Definition rejected : World :=
  typed "open example.com" false (service [None] [] [] []).

(** A completed snapshot with one step, ["done"]. *)
Definition done : TaskResult := snapshot "completed" [withContent "done"] None.

(** A polling controller whose next poll returns [done]. *)
Definition finishing : World :=
  {| ui := {| task := "open example.com"; messages := []; loading := true;
              taskId := Some "abc"; showBrowser := true |};
     rt := {| intervals :=
                [ {| handle := 0; newTaskId := "abc"; loadingMsgId := "m1" |} ];
              nextHandle := 1; draws := 2;
              clock := fun k => N.of_nat (1000 + k);
              random := fun _ => "k3x9q0zpa";
              dates := fun k => N.of_nat (1001 + k) |};
     net := service [] [] [Some done] [] |}.

(** The run of the events of the view in which the task ["abc"] is started
    in visible mode and then cancelled, against a service that accepts
    the cancel. *)
Definition afterCancel : World :=
  Home.run
    [ Home.Change "open example.com"; Home.ClickToggle; Home.ClickRun;
      Home.ClickCancel ]
    (Home.initial browser
       (service [] [Some (created "abc"); Some (created "def")]
          [Some (snapshot "running" [] None)] [Some cancelled])).

(** The async flow with a late reply: the task ["abc"] is created, the
    first poll is answered [running]; the second poll is sent and,
    before its reply, the timer fires a third time; then the two
    replies arrive, both [completed] with the content ["done"]. *)
Definition lateReply : Home.Page :=
  Home.play
    [ Home.Does (Home.Change "open example.com"); Home.Does Home.ClickToggle;
      Home.Does Home.ClickRun; Home.Settles 0;
      Home.Does (Home.TimerFires 0); Home.Settles 0;
      Home.Does (Home.TimerFires 0); Home.Does (Home.TimerFires 0);
      Home.Settles 0; Home.Settles 0 ]
    (Home.quiet
       (Home.initial browser
          (service [] [Some (created "abc")]
             [Some (snapshot "running" [] None); Some done; Some done] []))).

(** A polling controller whose cancel request the service accepts. *)
Definition accepting : World :=
  {| ui := {| task := "open example.com"; messages := []; loading := true;
              taskId := Some "abc"; showBrowser := true |};
     rt := {| intervals :=
                [ {| handle := 0; newTaskId := "abc"; loadingMsgId := "m1" |} ];
              nextHandle := 1; draws := 2;
              clock := fun k => N.of_nat (1000 + k);
              random := fun _ => "k3x9q0zpa";
              dates := fun k => N.of_nat (1001 + k) |};
     net := service [] [] [] [Some cancelled] |}.

(** A polling controller whose cancel request the service rejects. *)
Definition cancelling : World :=
  {| ui := {| task := "open example.com"; messages := []; loading := true;
              taskId := Some "abc"; showBrowser := true |};
     rt := {| intervals :=
                [ {| handle := 0; newTaskId := "abc"; loadingMsgId := "m1" |} ];
              nextHandle := 1; draws := 2;
              clock := fun k => N.of_nat (1000 + k);
              random := fun _ => "k3x9q0zpa";
              dates := fun k => N.of_nat (1001 + k) |};
     net := service [] [] [] [None] |}.

End Sample.

(* ===================================================================== *)
(** ** The wording of the claims, to compare the code with *)
(* ===================================================================== *)

Module Spec.

(** Spec, 4.1: "filters to steps with non-empty content, extracts
    content ... order preserved from input". *)
Fixpoint nonEmptyContents (l : list StepResult) : list string :=
  match l with
  | [] => []
  | step :: rest =>
      match content step with
      | Some (String a c) => String a c :: nonEmptyContents rest
      | _ => nonEmptyContents rest
      end
  end.

(** Spec, 4.2: "using that combined text, or error, or a fallback
    literal ... if both are empty": the first non-empty text of a
    chain, the empty text when there is none. *)
Fixpoint firstNonEmpty (chain : list string) : string :=
  match chain with
  | [] => ""
  | EmptyString :: rest => firstNonEmpty rest
  | s :: _ => s
  end.

(** An optional text read as a text: absent is empty. *)
Definition textOf (o : option string) : string :=
  match o with
  | Some s => s
  | None => ""
  end.

(** What [||] takes for unset: an option that is absent or falsy. *)
Definition falsyText (o : option string) : Prop := o = None \/ o = Some "".
Definition falsyNum (o : option Z) : Prop := o = None \/ o = Some 0%Z.

(** [v] is the default [d] when the option is absent or falsy and the
    supplied value otherwise. *)
Definition defaulted {A} (falsy : option A -> Prop) (d : A)
    (o : option A) (v : A) : Prop :=
  (falsy o -> v = d) /\ (forall x, o = Some x -> ~ falsy o -> v = x).

End Spec.

(* ===================================================================== *)
(** ** Facts about the JavaScript primitives *)
(* ===================================================================== *)

Lemma truthy_nonempty (s : string) : s <> "" -> JS.truthy s = true.
Proof. destruct s; [congruence | reflexivity]. Qed.

Lemma join_concat (sep : string) (l : list string) :
  JS.join sep l = String.concat sep l.
Proof.
  induction l as [| x l IH]; [reflexivity |].
  destruct l as [| y l]; [reflexivity |].
  change (JS.join sep (x :: y :: l)) with (x ++ sep ++ JS.join sep (y :: l)).
  change (String.concat sep (x :: y :: l))
    with (x ++ sep ++ String.concat sep (y :: l)).
  rewrite IH. reflexivity.
Qed.

Lemma orElse_chain (a : string) (o : option string) (c : string) :
  JS.orElse a (JS.orElseOpt o c) = Spec.firstNonEmpty [a; Spec.textOf o; c].
Proof.
  destruct a as [| x a]; [| reflexivity].
  destruct o as [[| y b] |]; try reflexivity; destruct c; reflexivity.
Qed.

Lemma trimStart_whiteSpace (c s : string) :
  In c JS.whiteSpace -> JS.trimStart (c ++ s) = JS.trimStart s.
Proof.
  unfold JS.whiteSpace. intros H.
  repeat (destruct H as [<- | H]; [reflexivity |]).
  destruct H.
Qed.

Lemma trimStart_blank (s : string) : JS.blank s -> JS.trimStart s = "".
Proof.
  induction 1 as [| c s Hc _ IH]; [reflexivity |].
  rewrite trimStart_whiteSpace by assumption. exact IH.
Qed.

Lemma trim_blank (s : string) : JS.blank s -> JS.trim s = "".
Proof.
  intros H. unfold JS.trim. rewrite (trimStart_blank s H). reflexivity.
Qed.

Lemma filter_contents (l : list StepResult) :
  map BrowserAgentService.contentOf
      (filter (fun step => JS.truthyOpt (content step)) l)
  = Spec.nonEmptyContents l.
Proof.
  induction l as [| step rest IH]; [reflexivity |].
  unfold BrowserAgentService.contentOf in *. simpl.
  destruct (content step) as [[| a c] |] eqn:E; simpl; rewrite ?E, IH; reflexivity.
Qed.

Arguments JS.trim : simpl never.
Arguments JS.truthy : simpl never.
Arguments JS.decimal : simpl never.
Arguments nextReply : simpl never.
Arguments Home.msgId : simpl never.

(* ===================================================================== *)
(** ** [combineResults] *)
(* ===================================================================== *)

Section CombineResults.

Import BrowserAgentService.

Let step (c e : option string) : StepResult :=
  {| content := c; error := e; url := None; title := None |}.

(** The example of the spec's testable properties: steps without
    content are dropped and the order is kept. *)
Example combineResults_a_x_b :
  combineResults (Some [step (Some "a") None; step None (Some "x");
                        step (Some "b") None])
  = "a" ++ JS.blankLine ++ "b".
Proof. reflexivity. Qed.

(** C2, as the spec words it, fails: for an absent sequence the code
    does not return the English text ["No results"]; its literal is
    the Russian ["Нет результатов"]. *)
Lemma combineResults_absent_not_No_results :
  ~ (combineResults None = "No results").
Proof. unfold combineResults. discriminate. Qed.

(** C2 (amended): [combineResults] is a total function of its
    argument alone; for an absent or an empty sequence it returns the
    literal ["Нет результатов"]; for every non-empty sequence it
    returns the contents of exactly the steps that have a non-empty
    content, in input order, joined by ["\n\n"]. *)
Theorem combineResults_spec :
  combineResults None = "Нет результатов"
  /\ combineResults (Some []) = "Нет результатов"
  /\ forall (first : StepResult) (rest : list StepResult),
       combineResults (Some (first :: rest))
       = String.concat JS.blankLine (Spec.nonEmptyContents (first :: rest)).
Proof.
  split; [reflexivity |]. split; [reflexivity |].
  intros first rest.
  change (combineResults (Some (first :: rest)))
    with (JS.join JS.blankLine
            (map contentOf
               (filter (fun s => JS.truthyOpt (content s)) (first :: rest)))).
  rewrite filter_contents. apply join_concat.
Qed.

End CombineResults.


(* ===================================================================== *)
(** ** The request bodies of [runTask] and [createTask] *)
(* ===================================================================== *)

Section RequestBodies.

Import BrowserAgentService.

Lemma orElseOpt_defaulted (o : option string) (d : string) :
  Spec.defaulted Spec.falsyText d o (JS.orElseOpt o d).
Proof.
  unfold Spec.defaulted, Spec.falsyText. split.
  - intros [-> | ->]; reflexivity.
  - intros x -> H. destruct x as [| a x]; [exfalso; auto | reflexivity].
Qed.

Lemma orElseNum_defaulted (o : option Z) (d : Z) :
  Spec.defaulted Spec.falsyNum d o (JS.orElseNum o d).
Proof.
  unfold Spec.defaulted, Spec.falsyNum. split.
  - intros [-> | ->]; reflexivity.
  - intros x -> H. simpl. destruct (Z.eqb_spec x 0) as [-> | _]; [exfalso; auto | reflexivity].
Qed.

(** C4, as worded, fails: a caller-supplied [max_steps] of [0] is not
    carried; the body posted by [runTask] has [max_steps = 5]. *)
Lemma runTask_max_steps_zero_not_carried :
  let options := {| model := None; provider := None;
                    max_steps := Some 0%Z; use_vision := None |} in
  let w := Sample.typed "" false (Sample.service [] [] [] []) in
  exists body,
    requests (net (snd (runTask "open example.com" true options w)))
    = [PostRun body]
    /\ max_steps options = Some 0%Z
    /\ run_max_steps body <> 0%Z.
Proof.
  eexists. split; [reflexivity |]. split; [reflexivity |].
  simpl. discriminate.
Qed.

(** C4 (amended): the body posted by [runTask] carries the defaults
    [model = "gpt-4.1-nano-2025-04-14"], [provider = "openai"],
    [max_steps = 5] when the corresponding option is unset or falsy
    (the empty string, [0]), and the caller-supplied value otherwise;
    the body posted by [createTask] has [use_vision] true unless the
    option is explicitly [false]. *)
Theorem request_bodies (task : string) (headless : bool)
    (options : Options) (w : World) :
  (exists body,
      requests (net (snd (runTask task headless options w)))
      = (requests (net w) ++ [PostRun body])%list
      /\ run_task body = task
      /\ run_headless body = headless
      /\ Spec.defaulted Spec.falsyText "gpt-4.1-nano-2025-04-14" (model options) (run_model body)
      /\ Spec.defaulted Spec.falsyText "openai" (provider options) (run_provider body)
      /\ Spec.defaulted Spec.falsyNum 5%Z (max_steps options) (run_max_steps body))
  /\
  (exists body,
      requests (net (snd (createTask task headless options w)))
      = (requests (net w) ++ [PostTask body])%list
      /\ (req_use_vision body = false <-> use_vision options = Some false)).
Proof.
  split.
  - eexists. split.
    + unfold runTask, tryCatch, bind, axios, throw, ret.
      destruct (nextReply (runReplies (net w))); reflexivity.
    + cbn. repeat split;
        try apply orElseOpt_defaulted; try apply orElseNum_defaulted.
  - eexists. split.
    + unfold createTask, tryCatch, bind, axios, throw, ret.
      destruct (nextReply (taskReplies (net w))); reflexivity.
    + cbn. destruct (use_vision options) as [[|] |]; simpl;
        split; congruence.
Qed.

End RequestBodies.

(* ===================================================================== *)
(** ** The handlers of [Home] *)
(* ===================================================================== *)

Section Handlers.

Import BrowserAgentService Home.

Lemma without_fresh (i : string) (l : list Message) :
  ~ In i (map id l) -> without i l = l.
Proof.
  induction l as [| m l IH]; [reflexivity |].
  simpl. intros H.
  destruct (String.eqb_spec (id m) i) as [E | _]; [exfalso; auto |].
  simpl. rewrite IH; [reflexivity | tauto].
Qed.

Lemma without_app (i : string) (l1 l2 : list Message) :
  without i (l1 ++ l2) = (without i l1 ++ without i l2)%list.
Proof. apply filter_app. Qed.

Lemma without_same (i : string) (m : Message) :
  id m = i -> without i [m] = [].
Proof. intros <-. simpl. rewrite String.eqb_refl. reflexivity. Qed.

Lemma without_other (i : string) (m : Message) :
  id m <> i -> without i [m] = [m].
Proof.
  intros H. simpl.
  destruct (String.eqb_spec (id m) i); [contradiction | reflexivity].
Qed.

(** C10: when the input is empty or white space only, [handleRun] and
    [handleRunWithVisibleBrowser] return at once and leave the whole
    world as it was: no message, no request, no state change. *)
Theorem blank_submission_noop (w : World) :
  JS.blank (task (ui w)) ->
  handleRun w = (Ok tt, w) /\ handleRunWithVisibleBrowser w = (Ok tt, w).
Proof.
  intros H. apply trim_blank in H.
  unfold handleRun, handleRunWithVisibleBrowser, bind, read.
  rewrite H. split; reflexivity.
Qed.

Lemma blank_spaces : JS.blank "  ".
Proof.
  apply (JS.blank_cons " " " "); [simpl; tauto |].
  apply (JS.blank_cons " " ""); [simpl; tauto | constructor].
Qed.

Lemma blank_submission_noop_witness :
  JS.blank (task (ui (Sample.typed "  " true (Sample.service [] [] [] []))))
  /\ handleRun (Sample.typed "  " true (Sample.service [] [] [] []))
     = (Ok tt, Sample.typed "  " true (Sample.service [] [] [] []))
  /\ handleRunWithVisibleBrowser
       (Sample.typed "  " true (Sample.service [] [] [] []))
     = (Ok tt, Sample.typed "  " true (Sample.service [] [] [] [])).
Proof.
  split; [exact blank_spaces |].
  apply (blank_submission_noop
           (Sample.typed "  " true (Sample.service [] [] [] []))).
  exact blank_spaces.
Defined.

Lemma without_transient (i : string) (l : list Message) (u t : Message) :
  ~ In i (map id l) -> id u <> i -> id t = i ->
  without i ((l ++ [u]) ++ [t]) = (l ++ [u])%list.
Proof.
  intros Hl Hu Ht.
  rewrite !without_app, (without_fresh i l Hl),
    (without_other i u Hu), (without_same i t Ht).
  apply app_nil_r.
Qed.

(** Unfolding of a handler down to the primitives of the monad. *)
Ltac run_handler :=
  unfold handleRun, handleRunWithVisibleBrowser, handleCancel, pollStatus,
    runTask, createTask, getTaskStatus, cancelTask,
    tryFinally, tryCatch, bind, read, axios, throw.

(** Reading [removeMessage] and the drawn identifiers back. *)
Ltac fold_messages :=
  repeat match goal with
  | |- context [filter (fun msg => negb (String.eqb (id msg) ?i)) ?l] =>
      change (filter (fun msg => negb (String.eqb (id msg) i)) l)
        with (without i l)
  end;
  repeat match goal with
  | |- context [msgId (clock ?r ?k) (random ?r ?k)] =>
      change (msgId (clock r k) (random r k)) with (idAt r k)
  end.

(** C5: a sync submission whose [runTask] resolves adds exactly the
    user message with the task text and then the assistant message
    with the service's result; the transient system message is not in
    the final list, the input is cleared, the handler returns
    normally and the controller is idle.  The submission takes place
    when the trimmed text is not empty; the identifier drawn for the
    transient message is one no other message carries. *)
Theorem sync_success (w : World) (response : RunResponse) :
  JS.trim (task (ui w)) <> "" ->
  nextReply (runReplies (net w)) = Some response ->
  idAt (rt w) (draws (rt w)) <> idAt (rt w) (S (draws (rt w))) ->
  ~ In (idAt (rt w) (S (draws (rt w)))) (map id (messages (ui w))) ->
  fst (handleRun w) = Ok tt
  /\ messages (ui (snd (handleRun w)))
     = (messages (ui w)
        ++ [ drawn (rt w) (draws (rt w)) user (task (ui w));
             drawn (rt w) (S (S (draws (rt w)))) assistant (result response) ])%list
  /\ ~ In (drawn (rt w) (S (draws (rt w))) system "Выполняю задачу...")
          (messages (ui (snd (handleRun w))))
  /\ task (ui (snd (handleRun w))) = ""
  /\ idle (snd (handleRun w)).
Proof.
  intros Htask Hreply Hid Hfresh.
  apply truthy_nonempty in Htask.
  run_handler. rewrite Htask. cbn.
  rewrite Hreply. cbn. fold_messages.
  rewrite without_transient by (assumption || reflexivity).
  rewrite <- app_assoc.
  repeat split.
  intros Hin. apply in_app_or in Hin. destruct Hin as [Hin | Hin].
  - apply Hfresh. apply (in_map id) in Hin. exact Hin.
  - destruct Hin as [E | [E | []]]; [| discriminate E].
    apply Hid. apply (f_equal id) in E. exact E.
Qed.

(** C6: a sync submission whose [runTask] throws adds exactly the
    user message and a system error message, adds no assistant
    message, returns normally (the failure is caught) and leaves the
    controller idle. *)
Theorem sync_failure (w : World) :
  JS.trim (task (ui w)) <> "" ->
  nextReply (runReplies (net w)) = None ->
  idAt (rt w) (draws (rt w)) <> idAt (rt w) (S (draws (rt w))) ->
  ~ In (idAt (rt w) (S (draws (rt w)))) (map id (messages (ui w))) ->
  fst (handleRun w) = Ok tt
  /\ messages (ui (snd (handleRun w)))
     = (messages (ui w)
        ++ [ drawn (rt w) (draws (rt w)) user (task (ui w));
             drawn (rt w) (S (S (draws (rt w)))) system
               "Ошибка при выполнении задачи" ])%list
  /\ (forall m, In m (messages (ui (snd (handleRun w)))) ->
                type m = assistant -> In m (messages (ui w)))
  /\ idle (snd (handleRun w)).
Proof.
  intros Htask Hreply Hid Hfresh.
  apply truthy_nonempty in Htask.
  run_handler. rewrite Htask. cbn.
  rewrite Hreply. cbn. fold_messages.
  rewrite without_transient by (assumption || reflexivity).
  rewrite <- app_assoc.
  repeat split.
  intros m Hin Hty. apply in_app_or in Hin.
  destruct Hin as [Hin | [<- | [<- | []]]]; [assumption | |]; discriminate Hty.
Qed.

(** C8: when [cancelTask] throws, [handleCancel] appends one system
    error message and changes nothing else: the input, the loading
    flag, the stored task id and the browser toggle are as before, no
    message is removed, and the timers are untouched. *)
Theorem cancel_failure (w : World) (tid : string) :
  taskId (ui w) = Some tid ->
  tid <> "" ->
  nextReply (cancelReplies (net w)) = None ->
  fst (handleCancel w) = Ok tt
  /\ ui (snd (handleCancel w))
     = {| task := task (ui w);
          messages := messages (ui w)
            ++ [ drawn (rt w) (draws (rt w)) system "Ошибка при отмене задачи" ];
          loading := loading (ui w);
          taskId := Some tid;
          showBrowser := showBrowser (ui w) |}
  /\ intervals (rt (snd (handleCancel w))) = intervals (rt w).
Proof.
  intros Hid Htid Hreply.
  apply truthy_nonempty in Htid.
  run_handler. rewrite Hid, Htid. cbn.
  rewrite Hreply. cbn. fold_messages.
  rewrite Hid. repeat split.
Qed.

Lemma sync_success_witness :
  (JS.trim (task (ui Sample.answered)) <> ""
   /\ nextReply (runReplies (net Sample.answered))
      = Some {| result := "Example Domain" |}
   /\ idAt (rt Sample.answered) 0 <> idAt (rt Sample.answered) 1
   /\ ~ In (idAt (rt Sample.answered) 1) (map id (messages (ui Sample.answered))))
  /\ map msg_content (messages (ui (snd (handleRun Sample.answered))))
     = ["open example.com"; "Example Domain"].
Proof.
  assert (H1 : JS.trim (task (ui Sample.answered)) <> "")
    by (vm_compute; discriminate).
  assert (H2 : nextReply (runReplies (net Sample.answered))
               = Some {| result := "Example Domain" |}) by reflexivity.
  assert (H3 : idAt (rt Sample.answered) (draws (rt Sample.answered))
               <> idAt (rt Sample.answered) (S (draws (rt Sample.answered))))
    by (vm_compute; discriminate).
  assert (H4 : ~ In (idAt (rt Sample.answered) (S (draws (rt Sample.answered))))
                    (map id (messages (ui Sample.answered))))
    by (simpl; tauto).
  split; [repeat split; assumption |].
  destruct (sync_success Sample.answered _ H1 H2 H3 H4) as (_ & Hm & _).
  rewrite Hm. reflexivity.
Defined.

Lemma sync_failure_witness :
  (JS.trim (task (ui Sample.rejected)) <> ""
   /\ nextReply (runReplies (net Sample.rejected)) = None
   /\ idAt (rt Sample.rejected) 0 <> idAt (rt Sample.rejected) 1
   /\ ~ In (idAt (rt Sample.rejected) 1) (map id (messages (ui Sample.rejected))))
  /\ map type (messages (ui (snd (handleRun Sample.rejected))))
     = [user; system].
Proof.
  assert (H1 : JS.trim (task (ui Sample.rejected)) <> "")
    by (vm_compute; discriminate).
  assert (H2 : nextReply (runReplies (net Sample.rejected)) = None)
    by reflexivity.
  assert (H3 : idAt (rt Sample.rejected) (draws (rt Sample.rejected))
               <> idAt (rt Sample.rejected) (S (draws (rt Sample.rejected))))
    by (vm_compute; discriminate).
  assert (H4 : ~ In (idAt (rt Sample.rejected) (S (draws (rt Sample.rejected))))
                    (map id (messages (ui Sample.rejected))))
    by (simpl; tauto).
  split; [repeat split; assumption |].
  destruct (sync_failure Sample.rejected H1 H2 H3 H4) as (_ & Hm & _).
  rewrite Hm. reflexivity.
Defined.

Lemma cancel_failure_witness :
  (taskId (ui Sample.cancelling) = Some "abc"
   /\ "abc" <> ""
   /\ nextReply (cancelReplies (net Sample.cancelling)) = None)
  /\ loading (ui (snd (handleCancel Sample.cancelling))) = true
  /\ taskId (ui (snd (handleCancel Sample.cancelling))) = Some "abc"
  /\ length (intervals (rt (snd (handleCancel Sample.cancelling)))) = 1.
Proof.
  assert (H1 : taskId (ui Sample.cancelling) = Some "abc") by reflexivity.
  assert (H2 : "abc" <> "") by discriminate.
  assert (H3 : nextReply (cancelReplies (net Sample.cancelling)) = None)
    by reflexivity.
  split; [repeat split; assumption |].
  destruct (cancel_failure Sample.cancelling "abc" H1 H2 H3) as (_ & Hu & Ht).
  rewrite Hu, Ht. repeat split.
Defined.

(** *** The polling callback *)

Lemma terminal_iff (st : string) :
  terminal st = true <-> st = "completed" \/ st = "failed".
Proof.
  unfold terminal. rewrite orb_true_iff, !String.eqb_eq. tauto.
Qed.

(** C3, as worded, fails: for a completed task with neither a combined
    text nor an error the assistant message is not the English text
    of the spec's chain; its literal is the Russian
    ["Задача выполнена без результатов"]. *)
Lemma poll_fallback_not_english :
  Spec.firstNonEmpty
    [ combineResults (Some [Sample.noContent]); Spec.textOf None;
      "Task completed with no results" ]
  = "Task completed with no results"
  /\ map msg_content
       (messages (ui (snd (pollStatus
          {| handle := 0; newTaskId := "abc"; loadingMsgId := "m1" |}
          (Sample.typed "" true
             (Sample.service [] []
                [Some (Sample.snapshot "completed" [Sample.noContent] None)]
                []))))))
     = ["Задача выполнена без результатов"]
  /\ "Задача выполнена без результатов" <> "Task completed with no results".
Proof. split; [reflexivity | split; [reflexivity | discriminate]]. Qed.

(** C3 (amended): when a poll returns a snapshot whose status is
    [completed] or [failed], the callback, in that one step, stops its
    timer, removes the transient message, appends one assistant
    message whose content is the first non-empty text of
    [combineResults(results)], the snapshot's [error], and the literal
    ["Задача выполнена без результатов"], clears the task id and the
    input, and leaves the controller idle. *)
Theorem poll_terminal (t : Interval) (w : World) (snapshot : TaskResult) :
  nextReply (statusReplies (net w)) = Some snapshot ->
  status snapshot = "completed" \/ status snapshot = "failed" ->
  fst (pollStatus t w) = Ok tt
  /\ messages (ui (snd (pollStatus t w)))
     = (without (loadingMsgId t) (messages (ui w))
        ++ [ drawn (rt w) (draws (rt w)) assistant
               (Spec.firstNonEmpty
                  [ combineResults (results snapshot);
                    Spec.textOf (task_error snapshot);
                    "Задача выполнена без результатов" ]) ])%list
  /\ (forall t', In t' (intervals (rt (snd (pollStatus t w)))) ->
                 handle t' <> handle t)
  /\ taskId (ui (snd (pollStatus t w))) = None
  /\ task (ui (snd (pollStatus t w))) = ""
  /\ idle (snd (pollStatus t w)).
Proof.
  intros Hreply Hst. apply terminal_iff in Hst.
  run_handler. cbn. rewrite Hreply. cbn. rewrite Hst. cbn. fold_messages.
  rewrite orElse_chain. repeat split.
  intros t' Hin E. apply filter_In in Hin. destruct Hin as [_ Hin].
  rewrite E, Nat.eqb_refl in Hin. discriminate Hin.
Qed.

Lemma poll_terminal_witness :
  (nextReply (statusReplies (net Sample.finishing)) = Some Sample.done
   /\ (status Sample.done = "completed" \/ status Sample.done = "failed"))
  /\ map msg_content
       (messages (ui (snd (pollStatus
          {| handle := 0; newTaskId := "abc"; loadingMsgId := "m1" |}
          Sample.finishing))))
     = ["done"].
Proof.
  assert (H1 : nextReply (statusReplies (net Sample.finishing))
               = Some Sample.done) by reflexivity.
  assert (H2 : status Sample.done = "completed"
               \/ status Sample.done = "failed") by (left; reflexivity).
  split; [split; assumption |].
  destruct (poll_terminal
              {| handle := 0; newTaskId := "abc"; loadingMsgId := "m1" |}
              Sample.finishing Sample.done H1 H2) as (_ & Hm & _).
  rewrite Hm. reflexivity.
Defined.

(** *** The async flow, step by step *)

Lemma async_created (w : World) (created : TaskResponse) :
  JS.trim (task (ui w)) <> "" ->
  nextReply (taskReplies (net w)) = Some created ->
  handleRunWithVisibleBrowser w = (Ok tt, polling w created).
Proof.
  intros Htask Hreply. apply truthy_nonempty in Htask.
  run_handler. rewrite Htask. cbn. rewrite Hreply. cbn.
  unfold polling, withUi, withRt, withNet. cbn.
  rewrite <- app_assoc. reflexivity.
Qed.

Lemma poll_pending (t : Interval) (w : World) (snapshot : TaskResult) :
  nextReply (statusReplies (net w)) = Some snapshot ->
  terminal (status snapshot) = false ->
  pollStatus t w = (Ok tt, polled t w).
Proof.
  intros Hreply Hst. run_handler. cbn. rewrite Hreply. cbn.
  rewrite Hst. reflexivity.
Qed.

Lemma poll_finished (t : Interval) (w : World) (snapshot : TaskResult) :
  nextReply (statusReplies (net w)) = Some snapshot ->
  terminal (status snapshot) = true ->
  pollStatus t w = (Ok tt, finished t w snapshot).
Proof.
  intros Hreply Hst. run_handler. cbn. rewrite Hreply. cbn.
  rewrite Hst. reflexivity.
Qed.

(** *** A handler is its two halves run back to back *)

Ltac run_halves :=
  unfold finish, resume;
  unfold handleRun_begin, handleRun_resume,
    handleRunWithVisibleBrowser_begin, handleRunWithVisibleBrowser_resume,
    pollStatus_begin, pollStatus_resume, handleCancel_begin,
    handleCancel_resume, call, settle.

Lemma handleRun_cut (w : World) :
  handleRun w = (p <- handleRun_begin ;; finish p) w.
Proof.
  run_halves. run_handler.
  destruct (JS.truthy (JS.trim (task (ui w)))); cbn; [| reflexivity].
  destruct (nextReply (runReplies (net w))); reflexivity.
Qed.

Lemma handleRunWithVisibleBrowser_cut (w : World) :
  handleRunWithVisibleBrowser w
  = (p <- handleRunWithVisibleBrowser_begin ;; finish p) w.
Proof.
  run_halves. run_handler.
  destruct (JS.truthy (JS.trim (task (ui w)))); cbn; [| reflexivity].
  destruct (nextReply (taskReplies (net w))); reflexivity.
Qed.

Lemma pollStatus_cut (t : Interval) (w : World) :
  pollStatus t w = (p <- pollStatus_begin t ;; finish p) w.
Proof.
  run_halves. run_handler. cbn.
  destruct (nextReply (statusReplies (net w))); reflexivity.
Qed.

Lemma handleCancel_cut (w : World) :
  handleCancel w = (p <- handleCancel_begin ;; finish p) w.
Proof.
  run_halves. run_handler.
  destruct (taskId (ui w)) as [tid |]; cbn; [| reflexivity].
  destruct (JS.truthy tid); cbn; [| reflexivity].
  destruct (nextReply (cancelReplies (net w))); reflexivity.
Qed.

(** An event handled to the end is the event up to the [await]
    followed at once by the rest of its handler. *)
Lemma dispatch_cut (e : Event) (w : World) :
  dispatch e w = (p <- fire e ;; finish p) w.
Proof.
  destruct e as [value | key shiftKey | | | | h].
  - unfold dispatch, fire, bind, read. cbn.
    destruct (loading (ui w)); reflexivity.
  - unfold dispatch, fire, handleKeyDown, handleKeyDown_begin, bind, read. cbn.
    destruct (loading (ui w)); [reflexivity |].
    destruct (String.eqb key "Enter" && negb shiftKey); [| reflexivity].
    destruct (showBrowser (ui w));
      [apply handleRunWithVisibleBrowser_cut | apply handleRun_cut].
  - reflexivity.
  - unfold dispatch, fire, bind, read. cbn.
    destruct (loading (ui w) || negb (JS.truthy (JS.trim (task (ui w)))));
      [reflexivity |].
    destruct (showBrowser (ui w));
      [apply handleRunWithVisibleBrowser_cut | apply handleRun_cut].
  - unfold dispatch, fire, bind, read. cbn.
    destruct (loading (ui w) && taskIdTruthy (ui w)); [| reflexivity].
    apply handleCancel_cut.
  - unfold dispatch, fire, bind, read. cbn.
    destruct (find (fun t => Nat.eqb (handle t) h) (intervals (rt w)));
      [apply pollStatus_cut | reflexivity].
Qed.

(** [fire] returns normally: an exception can only come with a reply. *)
Lemma fire_returns (e : Event) (w : World) :
  exists p, fst (fire e w) = Ok p.
Proof.
  assert (Hr : exists p, fst (handleRun_begin w) = Ok p).
  { run_halves. run_handler.
    destruct (JS.truthy (JS.trim (task (ui w)))); cbn; [| eexists; reflexivity].
    destruct (nextReply (runReplies (net w))); eexists; reflexivity. }
  assert (Hv : exists p, fst (handleRunWithVisibleBrowser_begin w) = Ok p).
  { run_halves. run_handler.
    destruct (JS.truthy (JS.trim (task (ui w)))); cbn; [| eexists; reflexivity].
    destruct (nextReply (taskReplies (net w))); eexists; reflexivity. }
  destruct e as [value | key shiftKey | | | | h];
    unfold fire, handleKeyDown_begin, bind, read; cbn.
  - destruct (loading (ui w)); eexists; reflexivity.
  - destruct (loading (ui w)); [eexists; reflexivity |].
    destruct (String.eqb key "Enter" && negb shiftKey); [| eexists; reflexivity].
    destruct (showBrowser (ui w)); assumption.
  - eexists; reflexivity.
  - destruct (loading (ui w) || negb (JS.truthy (JS.trim (task (ui w)))));
      [eexists; reflexivity |].
    destruct (showBrowser (ui w)); assumption.
  - destruct (loading (ui w) && taskIdTruthy (ui w)); [| eexists; reflexivity].
    run_halves. run_handler.
    destruct (taskId (ui w)) as [tid |]; cbn; [| eexists; reflexivity].
    destruct (JS.truthy tid); cbn; [| eexists; reflexivity].
    destruct (nextReply (cancelReplies (net w))); eexists; reflexivity.
  - destruct (find (fun t => Nat.eqb (handle t) h) (intervals (rt w)));
      [| eexists; reflexivity].
    run_halves. run_handler. cbn.
    destruct (nextReply (statusReplies (net w))); eexists; reflexivity.
Qed.

(** So [step] is the event handled to the end. *)
Lemma step_dispatch (e : Event) (w : World) :
  step e w = snd (dispatch e w).
Proof.
  rewrite dispatch_cut. destruct (fire_returns e w) as [p Hp].
  unfold step, act, quiet, bind. cbn [world inflight].
  revert Hp. destruct (fire e w) as [r w1]. cbn [fst]. intros ->.
  destruct p as [c |]; reflexivity.
Qed.

(** A run in which every reply comes before the next event is a run
    of the page under the schedule [sequential]. *)
Lemma play_sequential (es : list Event) (w : World) :
  play (sequential es) (quiet w) = quiet (run es w).
Proof.
  revert w. induction es as [| e es IH]; intros w; [reflexivity |].
  unfold play, run, sequential in *. cbn [flat_map fold_left app].
  rewrite <- IH. f_equal.
  destruct (fire_returns e w) as [p Hp].
  unfold step, act, quiet. cbn [world inflight].
  revert Hp. destruct (fire e w) as [r w1]. cbn [fst]. intros ->.
  destruct p as [c |]; reflexivity.
Qed.

(** What the view does with a click or a timer. *)
Lemma step_ClickRun_visible (w : World) :
  loading (ui w) = false ->
  JS.trim (task (ui w)) <> "" ->
  showBrowser (ui w) = true ->
  step ClickRun w = snd (handleRunWithVisibleBrowser w).
Proof.
  intros Hl Ht Hs. apply truthy_nonempty in Ht.
  rewrite step_dispatch. unfold dispatch, bind, read. rewrite Hl, Ht, Hs. reflexivity.
Qed.

Lemma step_TimerFires_active (w : World) (h : nat) (t : Interval) :
  find (fun t => Nat.eqb (handle t) h) (intervals (rt w)) = Some t ->
  step (TimerFires h) w = snd (pollStatus t w).
Proof.
  intros H. rewrite step_dispatch. unfold dispatch, bind, read. rewrite H. reflexivity.
Qed.

Lemma step_TimerFires_inactive (w : World) (h : nat) :
  find (fun t => Nat.eqb (handle t) h) (intervals (rt w)) = None ->
  step (TimerFires h) w = w.
Proof.
  intros H. rewrite step_dispatch. unfold dispatch, bind, read. rewrite H. reflexivity.
Qed.

Lemma run_TimerFires_inactive (w : World) (h k : nat) :
  find (fun t => Nat.eqb (handle t) h) (intervals (rt w)) = None ->
  run (repeat (TimerFires h) k) w = w.
Proof.
  intros H. induction k as [| k IH]; [reflexivity |].
  unfold run in *. simpl. rewrite step_TimerFires_inactive by exact H.
  exact IH.
Qed.

(** The async flow when every reply comes before the next event: the
    task ["abc"] is created, the first poll finds it running and the
    second completed with the one content ["done"]; however often the
    timer then fires, two status requests have been issued, the
    messages are the user message and one assistant message, and the
    stored task id is empty. *)
Lemma async_flow_in_order (text : string) (h0 d0 : nat) (now : nat -> N)
    (rnd : nat -> string) (stamp : nat -> N) (created : TaskResponse)
    (first second : TaskResult) (step1 : StepResult)
    (later : list (option TaskResult))
    (cancels : list (option CancelResponse)) (k : nat) :
  JS.trim text <> "" ->
  resp_task_id created = "abc" ->
  status first = "running" ->
  status second = "completed" ->
  results second = Some [step1] ->
  content step1 = Some "done" ->
  msgId (now d0) (rnd d0) <> msgId (now (S d0)) (rnd (S d0)) ->
  2 <= k ->
  statusPolls
    (run ([Change text; ClickToggle; ClickRun] ++ repeat (TimerFires h0) k)
       (flow h0 d0 now rnd stamp created (Some first :: Some second :: later) cancels))
  = [GetTask "abc"; GetTask "abc"]
  /\ messages (ui
       (run ([Change text; ClickToggle; ClickRun] ++ repeat (TimerFires h0) k)
          (flow h0 d0 now rnd stamp created (Some first :: Some second :: later) cancels)))
     = [ {| type := user; msg_content := text;
            timestamp := stamp d0; id := msgId (now d0) (rnd d0) |};
         {| type := assistant; msg_content := "done";
            timestamp := stamp (S (S d0));
            id := msgId (now (S (S d0))) (rnd (S (S d0))) |} ]
  /\ taskId (ui
       (run ([Change text; ClickToggle; ClickRun] ++ repeat (TimerFires h0) k)
          (flow h0 d0 now rnd stamp created (Some first :: Some second :: later) cancels)))
     = None.
Proof.
  intros Htext Hid H1 H2 Hres Hcontent Hfresh Hk.
  destruct k as [| [| k]]; try lia. clear Hk.
  set (w0 := flow h0 d0 now rnd stamp created (Some first :: Some second :: later) cancels).
  unfold run. rewrite fold_left_app.
  change (repeat (TimerFires h0) (S (S k)))
    with ([TimerFires h0; TimerFires h0] ++ repeat (TimerFires h0) k)%list.
  rewrite fold_left_app.
  cbn [fold_left].
  set (w1 := step ClickToggle (step (Change text) w0)).
  assert (E1 : w1 = {| ui := {| task := text; messages := []; loading := false;
                                taskId := None; showBrowser := true |};
                       rt := rt w0; net := net w0 |}) by reflexivity.
  clearbody w1. subst w1.
  rewrite step_ClickRun_visible by (reflexivity || assumption).
  rewrite (async_created _ created) by (reflexivity || assumption).
  cbn [snd].
  match goal with |- context [step (TimerFires h0) (step (TimerFires h0) ?w)] =>
    set (w2 := w) end.
  set (t := {| handle := h0; newTaskId := resp_task_id created;
               loadingMsgId := idAt (rt w0) (S d0) |}).
  assert (F2 : find (fun t => Nat.eqb (handle t) h0) (intervals (rt w2)) = Some t)
    by (cbn; rewrite Nat.eqb_refl; reflexivity).
  rewrite (step_TimerFires_active w2 h0 t F2).
  rewrite (poll_pending t w2 first)
    by (reflexivity || (rewrite H1; reflexivity)).
  cbn [snd].
  rewrite (step_TimerFires_active (polled t w2) h0 t F2).
  rewrite (poll_finished t (polled t w2) second)
    by (reflexivity || (rewrite H2; reflexivity)).
  cbn [snd].
  fold (run (repeat (TimerFires h0) k) (finished t (polled t w2) second)).
  rewrite run_TimerFires_inactive
    by (cbn; rewrite Nat.eqb_refl; reflexivity).
  subst w2 t w0. unfold statusPolls. cbn.
  rewrite Hid, Hres. cbn. rewrite Hcontent.
  unfold JS.truthyOpt, JS.orElse, JS.truthy, contentOf. cbn.
  rewrite Hcontent.
  unfold idAt. cbn. rewrite String.eqb_refl.
  destruct (String.eqb_spec (msgId (now d0) (rnd d0))
              (msgId (now (S d0)) (rnd (S d0)))) as [E | _];
    [contradiction |].
  cbn. repeat split.
Qed.

(** C7, as worded, fails: the callback of the timer awaits its reply,
    and the timer is cleared only when the reply has come.  The task
    ["abc"] is created, the first poll is answered [running], the second
    poll is sent, and the timer fires a third time before the second
    reply, [completed] with [results = [{content: "done"}]], arrives:
    three status requests are issued and two assistant messages
    appended. *)
Lemma async_flow_late_reply :
  resp_task_id (Sample.created "abc") = "abc"
  /\ status (Sample.snapshot "running" [] None) = "running"
  /\ status Sample.done = "completed"
  /\ results Sample.done = Some [Sample.withContent "done"]
  /\ statusPolls (world Sample.lateReply)
     = [GetTask "abc"; GetTask "abc"; GetTask "abc"]
  /\ map (fun m => (type m, msg_content m)) (messages (ui (world Sample.lateReply)))
     = [(user, "open example.com"); (assistant, "done"); (assistant, "done")].
Proof. vm_compute. repeat split. Qed.

(** C7 (amended): when [createTask] returns the id ["abc"], the first
    two polls return [status = "running"] and then
    [status = "completed"] with [results = [{content: "done"}]], and
    the reply to every request arrives before the next event (so each
    status reply before the timer fires again), then, however often the
    timer is given the chance to fire (at least twice), the controller
    issues exactly two status requests, the messages are the user
    message and one assistant message with content ["done"], the stored
    task id is empty and no request is left in flight. *)
Theorem async_flow (text : string) (h0 d0 : nat) (now : nat -> N)
    (rnd : nat -> string) (stamp : nat -> N) (created : TaskResponse)
    (first second : TaskResult) (step1 : StepResult)
    (later : list (option TaskResult))
    (cancels : list (option CancelResponse)) (k : nat) :
  JS.trim text <> "" ->
  resp_task_id created = "abc" ->
  status first = "running" ->
  status second = "completed" ->
  results second = Some [step1] ->
  content step1 = Some "done" ->
  msgId (now d0) (rnd d0) <> msgId (now (S d0)) (rnd (S d0)) ->
  2 <= k ->
  statusPolls (world
    (play (sequential ([Change text; ClickToggle; ClickRun]
                       ++ repeat (TimerFires h0) k))
       (quiet (flow h0 d0 now rnd stamp created
                 (Some first :: Some second :: later) cancels))))
  = [GetTask "abc"; GetTask "abc"]
  /\ messages (ui (world
       (play (sequential ([Change text; ClickToggle; ClickRun]
                          ++ repeat (TimerFires h0) k))
          (quiet (flow h0 d0 now rnd stamp created
                    (Some first :: Some second :: later) cancels)))))
     = [ {| type := user; msg_content := text;
            timestamp := stamp d0; id := msgId (now d0) (rnd d0) |};
         {| type := assistant; msg_content := "done";
            timestamp := stamp (S (S d0));
            id := msgId (now (S (S d0))) (rnd (S (S d0))) |} ]
  /\ taskId (ui (world
       (play (sequential ([Change text; ClickToggle; ClickRun]
                          ++ repeat (TimerFires h0) k))
          (quiet (flow h0 d0 now rnd stamp created
                    (Some first :: Some second :: later) cancels)))))
     = None
  /\ inflight
       (play (sequential ([Change text; ClickToggle; ClickRun]
                          ++ repeat (TimerFires h0) k))
          (quiet (flow h0 d0 now rnd stamp created
                    (Some first :: Some second :: later) cancels)))
     = [].
Proof.
  intros Htext Hid H1 H2 Hres Hcontent Hfresh Hk.
  rewrite play_sequential. cbn [world inflight quiet].
  destruct (async_flow_in_order text h0 d0 now rnd stamp created first second
              step1 later cancels k Htext Hid H1 H2 Hres Hcontent Hfresh Hk)
    as (Hp & Hm & Ht).
  repeat split; assumption.
Qed.

Lemma async_flow_witness :
  (JS.trim "open example.com" <> ""
   /\ resp_task_id (Sample.created "abc") = "abc"
   /\ status (Sample.snapshot "running" [] None) = "running"
   /\ status Sample.done = "completed"
   /\ results Sample.done = Some [Sample.withContent "done"]
   /\ content (Sample.withContent "done") = Some "done"
   /\ msgId 1000 "k3x9q0zpa" <> msgId 1001 "k3x9q0zpa"
   /\ 2 <= 5)
  /\ statusPolls (world
       (play (sequential ([Change "open example.com"; ClickToggle; ClickRun]
                          ++ repeat (TimerFires 0) 5))
          (quiet (flow 0 0 (clock Sample.browser) (random Sample.browser)
                    (dates Sample.browser) (Sample.created "abc")
                    [Some (Sample.snapshot "running" [] None); Some Sample.done]
                    []))))
     = [GetTask "abc"; GetTask "abc"].
Proof.
  assert (H1 : JS.trim "open example.com" <> "") by (vm_compute; discriminate).
  assert (H2 : msgId (clock Sample.browser 0) (random Sample.browser 0)
               <> msgId (clock Sample.browser 1) (random Sample.browser 1))
    by (vm_compute; discriminate).
  assert (H3 : 2 <= 5) by lia.
  split; [repeat split; assumption |].
  apply (async_flow "open example.com" 0 0 (clock Sample.browser)
           (random Sample.browser) (dates Sample.browser) (Sample.created "abc")
           (Sample.snapshot "running" [] None) Sample.done
           (Sample.withContent "done") [] [] 5
           H1 eq_refl eq_refl eq_refl eq_refl eq_refl H2 H3).
Defined.

(** *** Cancellation *)

(** A cancel the service accepts appends the notice, clears the task
    id and the loading flag, and leaves the timers as they were:
    [handleCancel] has no [clearInterval]. *)
Lemma cancel_accepted (w : World) (tid : string) (response : CancelResponse) :
  taskId (ui w) = Some tid ->
  tid <> "" ->
  nextReply (cancelReplies (net w)) = Some response ->
  fst (handleCancel w) = Ok tt
  /\ ui (snd (handleCancel w))
     = {| task := task (ui w);
          messages := messages (ui w)
            ++ [ drawn (rt w) (draws (rt w)) system "Задача отменена" ];
          loading := false;
          taskId := None;
          showBrowser := showBrowser (ui w) |}
  /\ intervals (rt (snd (handleCancel w))) = intervals (rt w).
Proof.
  intros Hid Htid Hreply.
  apply truthy_nonempty in Htid.
  run_handler. rewrite Hid, Htid. cbn.
  rewrite Hreply. cbn. fold_messages. repeat split.
Qed.

(** C1, on the code: the task ["abc"] is created and then cancelled,
    and the service accepts the cancel.  The stored task id is empty
    and the controller idle, as the claim says, but the timer is still
    active, and when it fires next [getTaskStatus] is called for
    ["abc"] again. *)
Theorem cancel_leaves_timer_polling :
  taskId (ui Sample.afterCancel) = None
  /\ idle Sample.afterCancel
  /\ map newTaskId (intervals (rt Sample.afterCancel)) = ["abc"]
  /\ requests (net Sample.afterCancel)
     = [ PostTask {| req_task := "open example.com"; req_headless := false;
                     req_model := "gpt-4.1-nano-2025-04-14";
                     req_provider := "openai"; req_max_steps := 5;
                     req_use_vision := true |};
         DeleteTask "abc" ]
  /\ statusPolls (step (TimerFires 0) Sample.afterCancel) = [GetTask "abc"].
Proof. vm_compute. repeat split. Qed.

(** C9, on the code: after that cancel the view lets the user submit
    again; the second async task starts a second timer while the
    first is still active, so two poll timers run in one controller. *)
Theorem resubmission_leaves_two_timers :
  map newTaskId (intervals (rt (step ClickRun Sample.afterCancel)))
  = ["abc"; "def"]
  /\ map handle (intervals (rt (step ClickRun Sample.afterCancel))) = [0; 1]
  /\ taskId (ui (step ClickRun Sample.afterCancel)) = Some "def".
Proof. vm_compute. repeat split. Qed.

(** *** The polling loop keeps one timer, but for an accepted cancel *)

Lemma handleRun_oneTimer (w : World) :
  oneTimer w -> loading (ui w) = false -> oneTimer (snd (handleRun w)).
Proof.
  intros [Hlen Hidle] Hl. specialize (Hidle Hl). unfold oneTimer.
  run_handler.
  destruct (JS.truthy (JS.trim (task (ui w)))); cbn;
    [| rewrite Hidle; cbn; split; [lia | reflexivity]].
  destruct (nextReply (runReplies (net w))); cbn; rewrite Hidle; cbn;
    (split; [lia | reflexivity]).
Qed.

Lemma handleRunWithVisibleBrowser_oneTimer (w : World) :
  oneTimer w -> loading (ui w) = false ->
  oneTimer (snd (handleRunWithVisibleBrowser w)).
Proof.
  intros [Hlen Hidle] Hl. specialize (Hidle Hl). unfold oneTimer.
  run_handler.
  destruct (JS.truthy (JS.trim (task (ui w)))); cbn;
    [| rewrite Hidle; cbn; split; [lia | reflexivity]].
  destruct (nextReply (taskReplies (net w))); cbn; rewrite Hidle; cbn;
    (split; [lia | intros; try reflexivity; discriminate]).
Qed.

Lemma pollStatus_oneTimer (w : World) (t : Interval) :
  oneTimer w -> In t (intervals (rt w)) -> oneTimer (snd (pollStatus t w)).
Proof.
  intros [Hlen Hidle] Hin. unfold oneTimer.
  assert (E : intervals (rt w) = [t]).
  { destruct (intervals (rt w)) as [| a [| b l]]; simpl in *;
      [contradiction | destruct Hin as [-> | []]; reflexivity | lia]. }
  run_handler. cbn.
  destruct (nextReply (statusReplies (net w))) as [snapshot |]; cbn.
  - destruct (terminal (status snapshot)); cbn.
    + rewrite E. cbn. rewrite Nat.eqb_refl. cbn. split; [lia | reflexivity].
    + split; assumption.
  - rewrite E. cbn. rewrite Nat.eqb_refl. cbn. split; [lia | reflexivity].
Qed.

Lemma handleCancel_rejected_oneTimer (w : World) :
  oneTimer w -> nextReply (cancelReplies (net w)) = None ->
  oneTimer (snd (handleCancel w)).
Proof.
  intros [Hlen Hidle] Hreply. unfold oneTimer.
  run_handler. destruct (taskId (ui w)) as [tid |]; cbn; [| split; assumption].
  destruct (JS.truthy tid); cbn; [| split; assumption].
  rewrite Hreply. cbn. split; assumption.
Qed.

Lemma step_oneTimer (e : Event) (w : World) :
  oneTimer w -> noAcceptedCancel e w -> oneTimer (step e w).
Proof.
  intros Hw Hc. rewrite step_dispatch. unfold dispatch, bind, read.
  destruct e as [value | key shiftKey | | | | h]; cbn.
  - destruct (loading (ui w)) eqn:Hl; [exact Hw |]. exact Hw.
  - destruct (loading (ui w)) eqn:Hl; [exact Hw |].
    unfold handleKeyDown, bind, read.
    destruct (String.eqb key "Enter" && negb shiftKey); [| exact Hw].
    destruct (showBrowser (ui w));
      [apply handleRunWithVisibleBrowser_oneTimer | apply handleRun_oneTimer];
      assumption.
  - exact Hw.
  - destruct (loading (ui w)) eqn:Hl; [exact Hw |]. cbn.
    destruct (negb (JS.truthy (JS.trim (task (ui w))))); [exact Hw |].
    destruct (showBrowser (ui w));
      [apply handleRunWithVisibleBrowser_oneTimer | apply handleRun_oneTimer];
      assumption.
  - destruct (loading (ui w) && taskIdTruthy (ui w)); [| exact Hw].
    apply handleCancel_rejected_oneTimer; [exact Hw | apply Hc; reflexivity].
  - destruct (find (fun t => Nat.eqb (handle t) h) (intervals (rt w))) as [t |] eqn:F;
      [| exact Hw].
    apply pollStatus_oneTimer; [exact Hw |]. apply find_some in F. tauto.
Qed.

(** On every run of the view in which no cancel is accepted, from a
    component rendered in a browser without timers, at most one poll
    timer is active and none is left when the controller is idle. *)
Lemma run_oneTimer (es : list Event) (w : World) :
  oneTimer w -> cancelsRejected es w -> oneTimer (run es w).
Proof.
  revert w. induction es as [| e es IH]; intros w Hw Hes; [exact Hw |].
  destruct Hes as [He Hes]. unfold run. simpl.
  apply IH; [apply step_oneTimer; assumption | exact Hes].
Qed.

Lemma initial_oneTimer (r : Runtime) (n : Network) :
  intervals r = [] -> oneTimer (initial r n).
Proof.
  intros H. unfold oneTimer, initial. simpl. rewrite H.
  split; [simpl; lia | reflexivity].
Qed.

(* ===================================================================== *)
(** ** Further behaviour of the controller and the client *)
(* ===================================================================== *)

(** *** The other exits of the polling callback *)

(** X1: when [getTaskStatus] throws, the callback returns normally; it
    stops its timer, removes the transient message, appends the system
    message ["Ошибка при проверке статуса задачи"], clears the loading
    flag and the task id, and keeps the input text. *)
Theorem poll_failure (t : Interval) (w : World) :
  nextReply (statusReplies (net w)) = None ->
  fst (pollStatus t w) = Ok tt
  /\ ui (snd (pollStatus t w))
     = {| task := task (ui w);
          messages := without (loadingMsgId t) (messages (ui w))
            ++ [ drawn (rt w) (draws (rt w)) system
                   "Ошибка при проверке статуса задачи" ];
          loading := false;
          taskId := None;
          showBrowser := showBrowser (ui w) |}
  /\ intervals (rt (snd (pollStatus t w)))
     = filter (fun t' => negb (Nat.eqb (handle t') (handle t)))
         (intervals (rt w))
  /\ requests (net (snd (pollStatus t w)))
     = (requests (net w) ++ [GetTask (newTaskId t)])%list.
Proof.
  intros Hreply. run_handler. cbn. rewrite Hreply. cbn. fold_messages.
  repeat split.
Qed.

Lemma poll_failure_witness :
  nextReply (statusReplies (net Sample.cancelling)) = None
  /\ map msg_content
       (messages (ui (snd (pollStatus
          {| handle := 0; newTaskId := "abc"; loadingMsgId := "m1" |}
          Sample.cancelling))))
     = ["Ошибка при проверке статуса задачи"]
  /\ intervals (rt (snd (pollStatus
       {| handle := 0; newTaskId := "abc"; loadingMsgId := "m1" |}
       Sample.cancelling))) = [].
Proof.
  assert (H : nextReply (statusReplies (net Sample.cancelling)) = None)
    by reflexivity.
  split; [exact H |].
  destruct (poll_failure
              {| handle := 0; newTaskId := "abc"; loadingMsgId := "m1" |}
              Sample.cancelling H) as (_ & Hu & Ht & _).
  rewrite Hu, Ht. split; reflexivity.
Defined.

(** X2: a poll that finds a status other than ["completed"] and
    ["failed"] changes neither the React state nor the timers: the
    request is all that happened. *)
Theorem poll_not_terminal (t : Interval) (w : World) (snapshot : TaskResult) :
  nextReply (statusReplies (net w)) = Some snapshot ->
  status snapshot <> "completed" ->
  status snapshot <> "failed" ->
  fst (pollStatus t w) = Ok tt
  /\ ui (snd (pollStatus t w)) = ui w
  /\ rt (snd (pollStatus t w)) = rt w
  /\ requests (net (snd (pollStatus t w)))
     = (requests (net w) ++ [GetTask (newTaskId t)])%list.
Proof.
  intros Hreply Hc Hf.
  assert (Hst : terminal (status snapshot) = false).
  { unfold terminal.
    destruct (String.eqb_spec (status snapshot) "completed"); [contradiction |].
    destruct (String.eqb_spec (status snapshot) "failed"); [contradiction |].
    reflexivity. }
  rewrite (poll_pending t w snapshot Hreply Hst). repeat split.
Qed.

Lemma poll_not_terminal_witness :
  (nextReply (statusReplies (net Sample.afterCancel))
   = Some (Sample.snapshot "running" [] None)
   /\ status (Sample.snapshot "running" [] None) <> "completed"
   /\ status (Sample.snapshot "running" [] None) <> "failed")
  /\ ui (snd (pollStatus
       {| handle := 0; newTaskId := "abc"; loadingMsgId := "m1" |}
       Sample.afterCancel)) = ui Sample.afterCancel.
Proof.
  assert (H1 : nextReply (statusReplies (net Sample.afterCancel))
               = Some (Sample.snapshot "running" [] None)) by reflexivity.
  assert (H2 : status (Sample.snapshot "running" [] None) <> "completed")
    by discriminate.
  assert (H3 : status (Sample.snapshot "running" [] None) <> "failed")
    by discriminate.
  split; [repeat split; assumption |].
  apply (poll_not_terminal
           {| handle := 0; newTaskId := "abc"; loadingMsgId := "m1" |}
           Sample.afterCancel (Sample.snapshot "running" [] None) H1 H2 H3).
Defined.

(** *** Starting an async task *)

(** X3: an async submission whose [createTask] resolves adds the user
    message and the transient message, sets the loading flag, stores the
    returned task id, keeps the input text, starts exactly one timer,
    which polls that task, and has posted the task non-headless with
    [max_steps = 5], the default model and provider, and vision on. *)
Theorem async_started (w : World) (created : TaskResponse) :
  JS.trim (task (ui w)) <> "" ->
  nextReply (taskReplies (net w)) = Some created ->
  fst (handleRunWithVisibleBrowser w) = Ok tt
  /\ ui (snd (handleRunWithVisibleBrowser w))
     = {| task := task (ui w);
          messages := messages (ui w)
            ++ [ drawn (rt w) (draws (rt w)) user (task (ui w));
                 drawn (rt w) (S (draws (rt w))) system
                   "Открываю браузер и выполняю задачу..." ];
          loading := true;
          taskId := Some (resp_task_id created);
          showBrowser := showBrowser (ui w) |}
  /\ intervals (rt (snd (handleRunWithVisibleBrowser w)))
     = (intervals (rt w)
        ++ [ {| handle := nextHandle (rt w);
                newTaskId := resp_task_id created;
                loadingMsgId := idAt (rt w) (S (draws (rt w))) |} ])%list
  /\ requests (net (snd (handleRunWithVisibleBrowser w)))
     = (requests (net w)
        ++ [ PostTask {| req_task := task (ui w); req_headless := false;
                         req_model := "gpt-4.1-nano-2025-04-14";
                         req_provider := "openai"; req_max_steps := 5;
                         req_use_vision := true |} ])%list.
Proof.
  intros Htask Hreply.
  rewrite (async_created w created Htask Hreply). repeat split.
Qed.

Lemma async_started_witness :
  (JS.trim (task (ui (Sample.typed "open example.com" true
      (Sample.service [] [Some (Sample.created "abc")] [] [])))) <> ""
   /\ nextReply (taskReplies (net (Sample.typed "open example.com" true
        (Sample.service [] [Some (Sample.created "abc")] [] []))))
      = Some (Sample.created "abc"))
  /\ map newTaskId (intervals (rt (snd (handleRunWithVisibleBrowser
       (Sample.typed "open example.com" true
          (Sample.service [] [Some (Sample.created "abc")] [] []))))))
     = ["abc"].
Proof.
  assert (H1 : JS.trim (task (ui (Sample.typed "open example.com" true
      (Sample.service [] [Some (Sample.created "abc")] [] [])))) <> "")
    by (vm_compute; discriminate).
  assert (H2 : nextReply (taskReplies (net (Sample.typed "open example.com" true
        (Sample.service [] [Some (Sample.created "abc")] [] []))))
      = Some (Sample.created "abc")) by reflexivity.
  split; [split; assumption |].
  destruct (async_started _ _ H1 H2) as (_ & _ & Ht & _).
  rewrite Ht. reflexivity.
Defined.

(** X4: an async submission whose [createTask] throws returns
    normally; it adds the user message and the system message
    ["Ошибка при запуске задачи"], removes the transient message, clears
    the loading flag, keeps the input text and the stored task id, and
    starts no timer. *)
Theorem async_create_failure (w : World) :
  JS.trim (task (ui w)) <> "" ->
  nextReply (taskReplies (net w)) = None ->
  idAt (rt w) (draws (rt w)) <> idAt (rt w) (S (draws (rt w))) ->
  ~ In (idAt (rt w) (S (draws (rt w)))) (map id (messages (ui w))) ->
  fst (handleRunWithVisibleBrowser w) = Ok tt
  /\ ui (snd (handleRunWithVisibleBrowser w))
     = {| task := task (ui w);
          messages := messages (ui w)
            ++ [ drawn (rt w) (draws (rt w)) user (task (ui w));
                 drawn (rt w) (S (S (draws (rt w)))) system
                   "Ошибка при запуске задачи" ];
          loading := false;
          taskId := taskId (ui w);
          showBrowser := showBrowser (ui w) |}
  /\ intervals (rt (snd (handleRunWithVisibleBrowser w))) = intervals (rt w).
Proof.
  intros Htask Hreply Hid Hfresh.
  apply truthy_nonempty in Htask.
  run_handler. rewrite Htask. cbn. rewrite Hreply. cbn. fold_messages.
  rewrite without_transient by (assumption || reflexivity).
  rewrite <- app_assoc. repeat split.
Qed.

Lemma async_create_failure_witness :
  (JS.trim (task (ui (Sample.typed "open example.com" true
      (Sample.service [] [None] [] [])))) <> ""
   /\ nextReply (taskReplies (net (Sample.typed "open example.com" true
        (Sample.service [] [None] [] [])))) = None
   /\ idAt Sample.browser 0 <> idAt Sample.browser 1
   /\ ~ In (idAt Sample.browser 1) (map id []))
  /\ map type (messages (ui (snd (handleRunWithVisibleBrowser
       (Sample.typed "open example.com" true
          (Sample.service [] [None] [] []))))))
     = [user; system].
Proof.
  assert (H1 : JS.trim (task (ui (Sample.typed "open example.com" true
      (Sample.service [] [None] [] [])))) <> "") by (vm_compute; discriminate).
  assert (H2 : nextReply (taskReplies (net (Sample.typed "open example.com" true
        (Sample.service [] [None] [] [])))) = None) by reflexivity.
  assert (H3 : idAt Sample.browser 0 <> idAt Sample.browser 1)
    by (vm_compute; discriminate).
  assert (H4 : ~ In (idAt Sample.browser 1) (@map Message string id []))
    by (simpl; tauto).
  split; [repeat split; assumption |].
  destruct (async_create_failure
              (Sample.typed "open example.com" true
                 (Sample.service [] [None] [] [])) H1 H2 H3 H4) as (_ & Hu & _).
  rewrite Hu. reflexivity.
Defined.

(** *** Cancelling *)

(** X5: a cancel the service accepts returns normally, issues one
    [DELETE] for the stored task id, appends the system message
    ["Задача отменена"] and removes no message (the transient message of
    the task stays in the list), clears the loading flag and the task
    id, and keeps the input text. *)
Theorem cancel_success (w : World) (tid : string) (response : CancelResponse) :
  taskId (ui w) = Some tid ->
  tid <> "" ->
  nextReply (cancelReplies (net w)) = Some response ->
  fst (handleCancel w) = Ok tt
  /\ ui (snd (handleCancel w))
     = {| task := task (ui w);
          messages := messages (ui w)
            ++ [ drawn (rt w) (draws (rt w)) system "Задача отменена" ];
          loading := false;
          taskId := None;
          showBrowser := showBrowser (ui w) |}
  /\ requests (net (snd (handleCancel w)))
     = (requests (net w) ++ [DeleteTask tid])%list.
Proof.
  intros Hid Htid Hreply.
  apply truthy_nonempty in Htid.
  run_handler. rewrite Hid, Htid. cbn.
  rewrite Hreply. cbn. fold_messages. repeat split.
Qed.

Lemma cancel_success_witness :
  (taskId (ui Sample.accepting) = Some "abc"
   /\ "abc" <> ""
   /\ nextReply (cancelReplies (net Sample.accepting)) = Some Sample.cancelled)
  /\ requests (net (snd (handleCancel Sample.accepting))) = [DeleteTask "abc"]
  /\ taskId (ui (snd (handleCancel Sample.accepting))) = None.
Proof.
  assert (H1 : taskId (ui Sample.accepting) = Some "abc") by reflexivity.
  assert (H2 : "abc" <> "") by discriminate.
  assert (H3 : nextReply (cancelReplies (net Sample.accepting))
               = Some Sample.cancelled) by reflexivity.
  split; [repeat split; assumption |].
  destruct (cancel_success Sample.accepting "abc" Sample.cancelled H1 H2 H3)
    as (_ & Hu & Hr).
  rewrite Hu, Hr. split; reflexivity.
Defined.

(** X6: without a stored task id ([null] or the empty string)
    [handleCancel] returns at once: no request, no message, no state
    change. *)
Theorem cancel_without_task (w : World) :
  taskId (ui w) = None \/ taskId (ui w) = Some "" ->
  handleCancel w = (Ok tt, w).
Proof.
  intros [H | H]; unfold handleCancel, bind, read; rewrite H; reflexivity.
Qed.

Lemma cancel_without_task_witness :
  (taskId (ui Sample.answered) = None \/ taskId (ui Sample.answered) = Some "")
  /\ handleCancel Sample.answered = (Ok tt, Sample.answered).
Proof.
  assert (H : taskId (ui Sample.answered) = None
              \/ taskId (ui Sample.answered) = Some "") by (left; reflexivity).
  split; [exact H | exact (cancel_without_task Sample.answered H)].
Defined.

(** *** The keyboard and the toggle *)

(** X7: in every state of the view, pressing Enter without shift in the
    textarea does exactly what a click on the run button does (both are
    dead while loading, and the handlers ignore a blank text that the
    button's [disabled] attribute rules out); any other key, and Enter
    with shift, does nothing. *)
Theorem enter_is_run_button (w : World) :
  dispatch (KeyDown "Enter" false) w = dispatch ClickRun w
  /\ dispatch (KeyDown "Enter" true) w = (Ok tt, w)
  /\ forall key shiftKey, key <> "Enter" ->
       dispatch (KeyDown key shiftKey) w = (Ok tt, w).
Proof.
  split; [| split].
  - unfold dispatch, handleKeyDown, bind, read. cbn.
    destruct (loading (ui w)); [reflexivity |]. cbn.
    destruct (JS.truthy (JS.trim (task (ui w)))) eqn:Ht; cbn;
      [destruct (showBrowser (ui w)); reflexivity |].
    destruct (showBrowser (ui w));
      unfold handleRunWithVisibleBrowser, handleRun, bind, read;
      rewrite Ht; reflexivity.
  - unfold dispatch, handleKeyDown, bind, read. cbn.
    destruct (loading (ui w)); reflexivity.
  - intros key shiftKey Hkey.
    unfold dispatch, handleKeyDown, bind, read. cbn.
    destruct (loading (ui w)); [reflexivity |].
    destruct (String.eqb_spec key "Enter"); [contradiction | reflexivity].
Qed.

(** X8: [toggleBrowserMode] flips [showBrowser] and nothing else, so
    toggling twice gives the world back. *)
Theorem toggle_twice (w : World) :
  showBrowser (ui (snd (toggleBrowserMode w))) = negb (showBrowser (ui w))
  /\ snd (toggleBrowserMode (snd (toggleBrowserMode w))) = w.
Proof.
  split; [reflexivity |].
  destruct w as [[t m l i s] r n]. unfold toggleBrowserMode, bind, read.
  cbn. rewrite negb_involutive. reflexivity.
Qed.

(** *** The client *)

(** X9: what each operation of the client gives its caller: the
    [result] of the response, the [task_id] of the response, the
    snapshot, the response of the cancel, when the service answers;
    and, whatever made axios reject, one fixed message per operation
    otherwise. *)
Theorem client_outcomes (w : World) :
  (forall task headless options,
      fst (runTask task headless options w)
      = match nextReply (runReplies (net w)) with
        | Some response => Ok (result response)
        | None => Throw "Ошибка при выполнении задачи"
        end)
  /\ (forall task headless options,
      fst (createTask task headless options w)
      = match nextReply (taskReplies (net w)) with
        | Some response => Ok (resp_task_id response)
        | None => Throw "Ошибка при создании задачи"
        end)
  /\ (forall tid,
      fst (getTaskStatus tid w)
      = match nextReply (statusReplies (net w)) with
        | Some snapshot => Ok snapshot
        | None => Throw "Ошибка при получении статуса задачи"
        end)
  /\ (forall tid,
      fst (cancelTask tid w)
      = match nextReply (cancelReplies (net w)) with
        | Some response => Ok response
        | None => Throw "Ошибка при отмене задачи"
        end).
Proof.
  repeat split; intros; run_handler;
    match goal with |- context [nextReply ?l] => destruct (nextReply l) end;
    reflexivity.
Qed.

(** X10: the client owns no state: each operation, whether it resolves
    or throws, issues exactly one request ([GET /task/{id}] for
    [getTaskStatus], [DELETE /task/{id}] for [cancelTask]) and leaves the
    React state and the timers as they were. *)
Theorem client_stateless (w : World) :
  (forall task headless options,
      ui (snd (runTask task headless options w)) = ui w
      /\ rt (snd (runTask task headless options w)) = rt w
      /\ length (requests (net (snd (runTask task headless options w))))
         = S (length (requests (net w))))
  /\ (forall task headless options,
      ui (snd (createTask task headless options w)) = ui w
      /\ rt (snd (createTask task headless options w)) = rt w
      /\ length (requests (net (snd (createTask task headless options w))))
         = S (length (requests (net w))))
  /\ (forall tid,
      ui (snd (getTaskStatus tid w)) = ui w
      /\ rt (snd (getTaskStatus tid w)) = rt w
      /\ requests (net (snd (getTaskStatus tid w)))
         = (requests (net w) ++ [GetTask tid])%list)
  /\ (forall tid,
      ui (snd (cancelTask tid w)) = ui w
      /\ rt (snd (cancelTask tid w)) = rt w
      /\ requests (net (snd (cancelTask tid w)))
         = (requests (net w) ++ [DeleteTask tid])%list).
Proof.
  repeat split; intros; run_handler;
    match goal with |- context [nextReply ?l] => destruct (nextReply l) end;
    cbn; rewrite ?length_app; cbn; try lia; reflexivity.
Qed.

(** X11: the body posted by [createTask] carries the task text and the
    [headless] flag as given, and the defaults
    [model = "gpt-4.1-nano-2025-04-14"], [provider = "openai"],
    [max_steps = 5] when the corresponding option is unset or falsy, the
    supplied value otherwise. *)
Theorem createTask_body (task : string) (headless : bool)
    (options : Options) (w : World) :
  exists body,
    requests (net (snd (createTask task headless options w)))
    = (requests (net w) ++ [PostTask body])%list
    /\ req_task body = task
    /\ req_headless body = headless
    /\ Spec.defaulted Spec.falsyText "gpt-4.1-nano-2025-04-14"
         (model options) (req_model body)
    /\ Spec.defaulted Spec.falsyText "openai" (provider options)
         (req_provider body)
    /\ Spec.defaulted Spec.falsyNum 5%Z (max_steps options)
         (req_max_steps body).
Proof.
  eexists. split.
  - run_handler. destruct (nextReply (taskReplies (net w))); reflexivity.
  - cbn. repeat split;
      try apply orElseOpt_defaulted; try apply orElseNum_defaulted.
Qed.

(** *** The sync submission, whatever the service answers *)

(** X12: a sync submission posts the task text once to [/run], headless
    exactly when the browser toggle is off, with the default model,
    provider and step limit; whether the service answers or not, it
    touches neither the timers nor the stored task id nor the toggle and
    ends with the loading flag cleared; the input is cleared when the
    service answered and kept when it did not. *)
Theorem sync_submission (w : World) :
  JS.trim (task (ui w)) <> "" ->
  requests (net (snd (handleRun w)))
  = (requests (net w)
     ++ [ PostRun {| run_task := task (ui w);
                     run_headless := negb (showBrowser (ui w));
                     run_model := "gpt-4.1-nano-2025-04-14";
                     run_provider := "openai";
                     run_max_steps := 5 |} ])%list
  /\ intervals (rt (snd (handleRun w))) = intervals (rt w)
  /\ taskId (ui (snd (handleRun w))) = taskId (ui w)
  /\ showBrowser (ui (snd (handleRun w))) = showBrowser (ui w)
  /\ loading (ui (snd (handleRun w))) = false
  /\ task (ui (snd (handleRun w)))
     = match nextReply (runReplies (net w)) with
       | Some _ => ""
       | None => task (ui w)
       end.
Proof.
  intros Htask. apply truthy_nonempty in Htask.
  run_handler. rewrite Htask. cbn.
  destruct (nextReply (runReplies (net w))); cbn; repeat split.
Qed.

Lemma sync_submission_witness :
  JS.trim (task (ui Sample.rejected)) <> ""
  /\ task (ui (snd (handleRun Sample.rejected))) = "open example.com"
  /\ task (ui (snd (handleRun Sample.answered))) = "".
Proof.
  assert (H1 : JS.trim (task (ui Sample.rejected)) <> "")
    by (vm_compute; discriminate).
  assert (H2 : JS.trim (task (ui Sample.answered)) <> "")
    by (vm_compute; discriminate).
  split; [exact H1 |].
  destruct (sync_submission Sample.rejected H1) as (_ & _ & _ & _ & _ & Hr).
  destruct (sync_submission Sample.answered H2) as (_ & _ & _ & _ & _ & Ha).
  rewrite Hr, Ha. split; reflexivity.
Defined.

(** *** [trim] and the guard of the submission handlers *)

Lemma append_empty_r (s : string) : s ++ "" = s.
Proof. induction s as [| a s IH]; simpl; [| rewrite IH]; reflexivity. Qed.

Lemma append_assoc (a b c : string) : (a ++ b) ++ c = a ++ (b ++ c).
Proof. induction a as [| x a IH]; simpl; [| rewrite IH]; reflexivity. Qed.

Lemma length_append (a b : string) :
  String.length (a ++ b) = String.length a + String.length b.
Proof. induction a as [| x a IH]; simpl; [| rewrite IH]; reflexivity. Qed.

Lemma rev_append (a b : string) : JS.rev (a ++ b) = JS.rev b ++ JS.rev a.
Proof.
  induction a as [| x a IH]; simpl.
  - symmetry. apply append_empty_r.
  - rewrite IH. apply append_assoc.
Qed.

Lemma rev_involutive (s : string) : JS.rev (JS.rev s) = s.
Proof.
  induction s as [| a s IH]; [reflexivity |].
  simpl. rewrite rev_append, IH. reflexivity.
Qed.

Lemma rev_empty (s : string) : JS.rev s = "" -> s = "".
Proof.
  intros H. apply (f_equal JS.rev) in H. rewrite rev_involutive in H. exact H.
Qed.

Lemma isWhiteSpace_In (c : string) :
  JS.isWhiteSpace c = true -> In c JS.whiteSpace.
Proof.
  unfold JS.isWhiteSpace. rewrite existsb_exists.
  intros (x & Hx & E). apply String.eqb_eq in E. subst x. exact Hx.
Qed.

Lemma whiteSpace_length (c : string) :
  In c JS.whiteSpace -> 1 <= String.length c.
Proof.
  unfold JS.whiteSpace. intros H.
  repeat (destruct H as [<- | H]; [simpl; lia |]). destruct H.
Qed.

Lemma blank_append (a b : string) :
  JS.blank a -> JS.blank b -> JS.blank (a ++ b).
Proof.
  induction 1 as [| c s Hc _ IH]; intros Hb; [exact Hb |].
  rewrite append_assoc. apply JS.blank_cons; [exact Hc | exact (IH Hb)].
Qed.

Lemma blank_one (c : string) : In c JS.whiteSpace -> JS.blank c.
Proof.
  intros H. rewrite <- (append_empty_r c).
  apply JS.blank_cons; [exact H | constructor].
Qed.

(** [trimStart] either finds no white space at the front, or removes
    one white space character and goes on. *)
Lemma trimStart_cases (s : string) :
  JS.trimStart s = s
  \/ exists c rest, In c JS.whiteSpace /\ s = c ++ rest
                    /\ JS.trimStart s = JS.trimStart rest.
Proof.
  destruct s as [| a r1]; [left; reflexivity |].
  cbn [JS.trimStart].
  destruct (JS.isWhiteSpace (JS.b1 a)) eqn:E1.
  { right. exists (JS.b1 a), r1. apply isWhiteSpace_In in E1. auto. }
  destruct r1 as [| b r2]; [left; reflexivity |].
  destruct (JS.isWhiteSpace (JS.b2 a b)) eqn:E2.
  { right. exists (JS.b2 a b), r2. apply isWhiteSpace_In in E2. auto. }
  destruct r2 as [| c r3]; [left; reflexivity |].
  destruct (JS.isWhiteSpace (JS.b3 a b c)) eqn:E3.
  { right. exists (JS.b3 a b c), r3. apply isWhiteSpace_In in E3. auto. }
  left; reflexivity.
Qed.

Lemma trimStartRev_cases (s : string) :
  JS.trimStartRev s = s
  \/ exists c rest, In c JS.whiteSpace /\ s = JS.rev c ++ rest
                    /\ JS.trimStartRev s = JS.trimStartRev rest.
Proof.
  destruct s as [| c r1]; [left; reflexivity |].
  cbn [JS.trimStartRev].
  destruct (JS.isWhiteSpace (JS.b1 c)) eqn:E1.
  { right. exists (JS.b1 c), r1. apply isWhiteSpace_In in E1. auto. }
  destruct r1 as [| b r2]; [left; reflexivity |].
  destruct (JS.isWhiteSpace (JS.b2 b c)) eqn:E2.
  { right. exists (JS.b2 b c), r2. apply isWhiteSpace_In in E2. auto. }
  destruct r2 as [| a r3]; [left; reflexivity |].
  destruct (JS.isWhiteSpace (JS.b3 a b c)) eqn:E3.
  { right. exists (JS.b3 a b c), r3. apply isWhiteSpace_In in E3. auto. }
  left; reflexivity.
Qed.

Lemma rev_whiteSpace_length (c : string) :
  In c JS.whiteSpace -> 1 <= String.length (JS.rev c).
Proof.
  unfold JS.whiteSpace. intros H.
  repeat (destruct H as [<- | H]; [simpl; lia |]). destruct H.
Qed.

Lemma trimStart_empty_blank (s : string) : JS.trimStart s = "" -> JS.blank s.
Proof.
  remember (String.length s) as n eqn:Hn. revert s Hn.
  induction n as [n IH] using lt_wf_ind. intros s Hn H.
  destruct (trimStart_cases s) as [E | (c & rest & Hc & Hs & E)].
  - rewrite E in H. subst s. constructor.
  - subst s. apply JS.blank_cons; [exact Hc |].
    apply (IH (String.length rest)); [| reflexivity | congruence].
    rewrite Hn, length_append. pose proof (whiteSpace_length c Hc). lia.
Qed.

Lemma trimStart_idempotent (s : string) :
  JS.trimStart (JS.trimStart s) = JS.trimStart s.
Proof.
  remember (String.length s) as n eqn:Hn. revert s Hn.
  induction n as [n IH] using lt_wf_ind. intros s Hn.
  destruct (trimStart_cases s) as [E | (c & rest & Hc & Hs & E)].
  - rewrite !E. reflexivity.
  - rewrite E. apply (IH (String.length rest)); [| reflexivity].
    subst s. rewrite Hn, length_append.
    pose proof (whiteSpace_length c Hc). lia.
Qed.

Lemma trimStartRev_empty_blank (s : string) :
  JS.trimStartRev s = "" -> JS.blank (JS.rev s).
Proof.
  remember (String.length s) as n eqn:Hn. revert s Hn.
  induction n as [n IH] using lt_wf_ind. intros s Hn H.
  destruct (trimStartRev_cases s) as [E | (c & rest & Hc & Hs & E)].
  - rewrite E in H. subst s. constructor.
  - subst s. rewrite rev_append, rev_involutive.
    apply blank_append; [| apply blank_one; exact Hc].
    apply (IH (String.length rest)); [| reflexivity | congruence].
    rewrite Hn, length_append. pose proof (rev_whiteSpace_length c Hc). lia.
Qed.

Lemma trim_empty_blank (s : string) : JS.trim s = "" -> JS.blank s.
Proof.
  unfold JS.trim, JS.trimEnd. intros H.
  apply rev_empty in H. apply trimStartRev_empty_blank in H.
  rewrite rev_involutive in H.
  apply trimStart_empty_blank.
  rewrite <- trimStart_idempotent. apply trimStart_blank. exact H.
Qed.

(** X13: [trim] leaves nothing exactly of the texts made of white space
    only, so the guard [!task.trim()] of the two submission handlers
    (and of the run button) turns away the blank texts and no other. *)
Theorem trim_empty_iff_blank (s : string) : JS.trim s = "" <-> JS.blank s.
Proof. split; [apply trim_empty_blank | apply trim_blank]. Qed.

(** X14: the submission handlers return at once and change nothing
    exactly for a blank text; for every other text, by the time a
    handler awaits the reply it has appended the user message with the
    text and its transient message, set the loading flag and issued its
    one request, and the rest of the handler issues no other. *)
Theorem submission_iff_not_blank (w : World) :
  (JS.blank (task (ui w))
   /\ handleRun w = (Ok tt, w)
   /\ handleRunWithVisibleBrowser w = (Ok tt, w))
  \/
  (~ JS.blank (task (ui w))
   /\ (exists outcome,
        fst (handleRun_begin w)
        = Ok (Some (AwaitRun (idAt (rt w) (S (draws (rt w)))) outcome)))
   /\ ui (snd (handleRun_begin w))
      = {| task := task (ui w);
           messages := messages (ui w)
             ++ [ drawn (rt w) (draws (rt w)) user (task (ui w));
                  drawn (rt w) (S (draws (rt w))) system "Выполняю задачу..." ];
           loading := true;
           taskId := taskId (ui w);
           showBrowser := showBrowser (ui w) |}
   /\ requests (net (snd (handleRun_begin w)))
      = (requests (net w)
         ++ [ PostRun {| run_task := task (ui w);
                         run_headless := negb (showBrowser (ui w));
                         run_model := "gpt-4.1-nano-2025-04-14";
                         run_provider := "openai";
                         run_max_steps := 5 |} ])%list
   /\ requests (net (snd (handleRun w)))
      = requests (net (snd (handleRun_begin w)))
   /\ (exists outcome,
        fst (handleRunWithVisibleBrowser_begin w)
        = Ok (Some (AwaitCreate (idAt (rt w) (S (draws (rt w)))) outcome)))
   /\ ui (snd (handleRunWithVisibleBrowser_begin w))
      = {| task := task (ui w);
           messages := messages (ui w)
             ++ [ drawn (rt w) (draws (rt w)) user (task (ui w));
                  drawn (rt w) (S (draws (rt w))) system
                    "Открываю браузер и выполняю задачу..." ];
           loading := true;
           taskId := taskId (ui w);
           showBrowser := showBrowser (ui w) |}
   /\ requests (net (snd (handleRunWithVisibleBrowser_begin w)))
      = (requests (net w)
         ++ [ PostTask {| req_task := task (ui w); req_headless := false;
                          req_model := "gpt-4.1-nano-2025-04-14";
                          req_provider := "openai"; req_max_steps := 5;
                          req_use_vision := true |} ])%list
   /\ requests (net (snd (handleRunWithVisibleBrowser w)))
      = requests (net (snd (handleRunWithVisibleBrowser_begin w)))).
Proof.
  destruct (JS.trim (task (ui w))) as [| a s] eqn:Ht.
  - left. split; [apply trim_empty_blank; exact Ht |].
    unfold handleRun, handleRunWithVisibleBrowser, bind, read.
    rewrite Ht. split; reflexivity.
  - right. split.
    { intros Hb. apply trim_blank in Hb. rewrite Hb in Ht. discriminate Ht. }
    assert (Htr : JS.truthy (JS.trim (task (ui w))) = true)
      by (rewrite Ht; reflexivity).
    run_halves. run_handler. rewrite Htr. cbn.
    destruct (nextReply (runReplies (net w)));
      destruct (nextReply (taskReplies (net w))); cbn; fold_messages;
      rewrite <- !app_assoc;
      repeat split; eexists; reflexivity.
Qed.

(** *** More on [combineResults] *)

Lemma nonEmptyContents_nonempty (l : list StepResult) :
  Forall (fun s => s <> "") (Spec.nonEmptyContents l).
Proof.
  induction l as [| step rest IH]; simpl; [constructor |].
  destruct (content step) as [[| a c] |]; try exact IH.
  constructor; [discriminate | exact IH].
Qed.

Lemma nonEmptyContents_app (l1 l2 : list StepResult) :
  Spec.nonEmptyContents (l1 ++ l2)
  = (Spec.nonEmptyContents l1 ++ Spec.nonEmptyContents l2)%list.
Proof.
  induction l1 as [| step rest IH]; simpl; [reflexivity |].
  destruct (content step) as [[| a c] |]; rewrite IH; reflexivity.
Qed.

Lemma nonEmptyContents_nil_iff (l : list StepResult) :
  Spec.nonEmptyContents l = []
  <-> Forall (fun step => content step = None \/ content step = Some "") l.
Proof.
  induction l as [| step rest IH]; simpl.
  - split; [constructor | reflexivity].
  - destruct (content step) as [[| a c] |] eqn:E.
    + rewrite IH. split; [constructor; [right; exact E | assumption] |].
      intros H. inversion H. assumption.
    + split; [discriminate |]. intros H. inversion H as [| ? ? [H1 | H1] _].
      * congruence.
      * congruence.
    + rewrite IH. split; [constructor; [left; exact E | assumption] |].
      intros H. inversion H. assumption.
Qed.

Lemma join_empty (sep : string) (l : list string) :
  Forall (fun s => s <> "") l -> JS.join sep l = "" -> l = [].
Proof.
  destruct l as [| x [| y l]]; [reflexivity | |]; intros H E; inversion H;
    subst; simpl in E; destruct x; try contradiction; discriminate E.
Qed.

Lemma join_app (sep : string) (a b : list string) :
  a <> [] -> b <> [] ->
  JS.join sep (a ++ b) = JS.join sep a ++ sep ++ JS.join sep b.
Proof.
  intros Ha Hb. induction a as [| x a IH]; [contradiction |].
  destruct a as [| y a].
  - destruct b as [| z b]; [contradiction | reflexivity].
  - change (JS.join sep ((x :: y :: a) ++ b))
      with (x ++ sep ++ JS.join sep ((y :: a) ++ b)).
    change (JS.join sep (x :: y :: a)) with (x ++ sep ++ JS.join sep (y :: a)).
    rewrite IH by discriminate. rewrite !append_assoc. reflexivity.
Qed.

Lemma combineResults_join (l : list StepResult) :
  l <> [] ->
  combineResults (Some l) = JS.join JS.blankLine (Spec.nonEmptyContents l).
Proof.
  destruct l as [| step rest]; [contradiction |]. intros _.
  rewrite <- filter_contents. reflexivity.
Qed.

(** X15: [combineResults] returns the empty text exactly for a
    non-empty sequence none of whose steps has a content (absent or
    empty); only then does the caller's [||] chain go on to the error
    and the fallback. *)
Theorem combineResults_empty_iff (results : option (list StepResult)) :
  combineResults results = ""
  <-> exists l, results = Some l /\ l <> []
        /\ Forall (fun step => content step = None \/ content step = Some "") l.
Proof.
  split.
  - destruct results as [[| step rest] |]; try discriminate.
    intros H. exists (step :: rest). split; [reflexivity |].
    split; [discriminate |].
    rewrite combineResults_join in H by discriminate.
    apply nonEmptyContents_nil_iff.
    exact (join_empty _ _ (nonEmptyContents_nonempty _) H).
  - intros (l & -> & Hl & Hall).
    rewrite combineResults_join by exact Hl.
    apply nonEmptyContents_nil_iff in Hall. rewrite Hall. reflexivity.
Qed.

(** X16: the text of two runs of steps put end to end is the two texts
    with a blank line between them, when each run has a step with a
    content. *)
Theorem combineResults_append (l1 l2 : list StepResult) :
  Exists (fun step => JS.truthyOpt (content step) = true) l1 ->
  Exists (fun step => JS.truthyOpt (content step) = true) l2 ->
  combineResults (Some (l1 ++ l2)%list)
  = combineResults (Some l1) ++ JS.blankLine ++ combineResults (Some l2).
Proof.
  assert (Hne : forall l,
    Exists (fun step => JS.truthyOpt (content step) = true) l ->
    l <> [] /\ Spec.nonEmptyContents l <> []).
  { intros l H. split; [intros ->; inversion H |].
    intros E. apply nonEmptyContents_nil_iff in E.
    apply Exists_exists in H. destruct H as (step & Hin & Ht).
    rewrite Forall_forall in E. destruct (E step Hin) as [E1 | E1];
      rewrite E1 in Ht; discriminate Ht. }
  intros H1 H2. destruct (Hne l1 H1) as [N1 C1], (Hne l2 H2) as [N2 C2].
  rewrite !combineResults_join; try assumption.
  - rewrite nonEmptyContents_app. apply join_app; assumption.
  - intros E. apply app_eq_nil in E. tauto.
Qed.

Lemma combineResults_append_witness :
  (Exists (fun step => JS.truthyOpt (content step) = true)
     [Sample.withContent "a"; Sample.noContent]
   /\ Exists (fun step => JS.truthyOpt (content step) = true)
        [Sample.withContent "b"])
  /\ combineResults
       (Some ([Sample.withContent "a"; Sample.noContent]
              ++ [Sample.withContent "b"])%list)
     = "a" ++ JS.blankLine ++ "b".
Proof.
  assert (H1 : Exists (fun step => JS.truthyOpt (content step) = true)
                 [Sample.withContent "a"; Sample.noContent])
    by (apply Exists_cons_hd; reflexivity).
  assert (H2 : Exists (fun step => JS.truthyOpt (content step) = true)
                 [Sample.withContent "b"])
    by (apply Exists_cons_hd; reflexivity).
  split; [split; assumption |].
  rewrite (combineResults_append _ _ H1 H2). reflexivity.
Defined.

(** X17: what the assistant message says when a poll finds the task
    finished: ["Нет результатов"] when the snapshot has no results at
    all, whatever its error; the joined contents when a step has one;
    otherwise the snapshot's error when it is a non-empty text, and the
    literal ["Задача выполнена без результатов"] when it is not. *)
Theorem poll_message_cases (t : Interval) (w : World) (snapshot : TaskResult) :
  nextReply (statusReplies (net w)) = Some snapshot ->
  terminal (status snapshot) = true ->
  exists text,
    messages (ui (snd (pollStatus t w)))
    = (without (loadingMsgId t) (messages (ui w))
       ++ [drawn (rt w) (draws (rt w)) assistant text])%list
    /\ (results snapshot = None \/ results snapshot = Some [] ->
        text = "Нет результатов")
    /\ (forall l, results snapshot = Some l ->
        Spec.nonEmptyContents l <> [] ->
        text = String.concat JS.blankLine (Spec.nonEmptyContents l))
    /\ (forall l, results snapshot = Some l -> l <> [] ->
        Spec.nonEmptyContents l = [] ->
        text = match task_error snapshot with
               | Some (String a e) => String a e
               | _ => "Задача выполнена без результатов"
               end).
Proof.
  intros Hreply Hst. rewrite (poll_finished t w snapshot Hreply Hst).
  eexists. split; [reflexivity |]. split; [| split].
  - intros [-> | ->]; reflexivity.
  - intros l -> Hc.
    assert (Hl : l <> []) by (intros ->; apply Hc; reflexivity).
    rewrite (combineResults_join l Hl), join_concat.
    unfold JS.orElse.
    destruct (String.concat JS.blankLine (Spec.nonEmptyContents l)) eqn:E;
      [| reflexivity].
    exfalso. apply Hc. rewrite <- join_concat in E.
    exact (join_empty _ _ (nonEmptyContents_nonempty l) E).
  - intros l -> Hl Hc. rewrite (combineResults_join l Hl), Hc.
    destruct (task_error snapshot) as [[| a e] |]; reflexivity.
Qed.

Lemma poll_message_cases_witness :
  (nextReply (statusReplies (net Sample.finishing)) = Some Sample.done
   /\ terminal (status Sample.done) = true)
  /\ exists text,
       messages (ui (snd (pollStatus
         {| handle := 0; newTaskId := "abc"; loadingMsgId := "m1" |}
         Sample.finishing)))
       = [drawn (rt Sample.finishing) 2 assistant text]
       /\ text = "done".
Proof.
  assert (H1 : nextReply (statusReplies (net Sample.finishing))
               = Some Sample.done) by reflexivity.
  assert (H2 : terminal (status Sample.done) = true) by reflexivity.
  split; [split; assumption |].
  destruct (poll_message_cases
              {| handle := 0; newTaskId := "abc"; loadingMsgId := "m1" |}
              Sample.finishing Sample.done H1 H2)
    as (text & Hm & _ & Hc & _).
  exists text. split; [exact Hm |].
  apply (Hc [Sample.withContent "done"]); [reflexivity | discriminate].
Defined.

(** *** [addMessage] and [removeMessage] *)

(** X18: [addMessage] appends its message after the others and returns
    the identifier it gave it; removing a message by an identifier no
    other message carries takes exactly that message away, so adding
    and then removing gives the list back. *)
Theorem add_then_remove (content : string) (type : MessageType) (w : World) :
  ~ In (idAt (rt w) (draws (rt w))) (map id (messages (ui w))) ->
  fst (addMessage content type w) = Ok (idAt (rt w) (draws (rt w)))
  /\ messages (ui (snd (addMessage content type w)))
     = (messages (ui w) ++ [drawn (rt w) (draws (rt w)) type content])%list
  /\ messages (ui (snd ((i <- addMessage content type ;; removeMessage i) w)))
     = messages (ui w).
Proof.
  intros Hfresh. unfold addMessage, removeMessage, bind, read. cbn.
  fold_messages. repeat split.
  rewrite without_app, (without_fresh _ _ Hfresh), without_same by reflexivity.
  apply app_nil_r.
Qed.

Lemma add_then_remove_witness :
  ~ In (idAt (rt Sample.answered) (draws (rt Sample.answered)))
       (map id (messages (ui Sample.answered)))
  /\ messages (ui (snd ((i <- addMessage "note" system ;; removeMessage i)
                          Sample.answered)))
     = [].
Proof.
  assert (H : ~ In (idAt (rt Sample.answered) (draws (rt Sample.answered)))
                   (map id (messages (ui Sample.answered))))
    by (simpl; tauto).
  split; [exact H |].
  destruct (add_then_remove "note" system Sample.answered H) as (_ & _ & Hm).
  rewrite Hm. reflexivity.
Defined.

(** *** What holds in the states the view can reach *)

(** X19: on every run of the view, from the first render in a browser
    with no timer, in which the reply to each request arrives before
    the next event and the service accepts no cancel, at most one poll
    timer is active, none is left when the loading flag is clear, and
    no request is in flight. *)
Theorem one_timer_without_accepted_cancel (r : Runtime) (n : Network)
    (es : list Event) :
  intervals r = [] ->
  cancelsRejected es (initial r n) ->
  oneTimer (world (play (sequential es) (quiet (initial r n))))
  /\ inflight (play (sequential es) (quiet (initial r n))) = [].
Proof.
  intros Hr Hes. rewrite play_sequential. cbn [world inflight quiet].
  split; [| reflexivity].
  apply run_oneTimer; [apply initial_oneTimer; exact Hr | exact Hes].
Qed.

Lemma one_timer_without_accepted_cancel_witness :
  (intervals Sample.browser = []
   /\ cancelsRejected
        [Change "open example.com"; ClickToggle; ClickRun; ClickCancel;
         TimerFires 0]
        (initial Sample.browser
           (Sample.service [] [Some (Sample.created "abc")]
              [Some Sample.done] [None])))
  /\ oneTimer
       (world
          (play (sequential
                   [Change "open example.com"; ClickToggle; ClickRun;
                    ClickCancel; TimerFires 0])
             (quiet (initial Sample.browser
                       (Sample.service [] [Some (Sample.created "abc")]
                          [Some Sample.done] [None]))))).
Proof.
  assert (H1 : intervals Sample.browser = []) by reflexivity.
  assert (H2 : cancelsRejected
        [Change "open example.com"; ClickToggle; ClickRun; ClickCancel;
         TimerFires 0]
        (initial Sample.browser
           (Sample.service [] [Some (Sample.created "abc")]
              [Some Sample.done] [None]))).
  { simpl. unfold noAcceptedCancel.
    repeat split; try (intros E; discriminate E). }
  split; [split; assumption |].
  exact (proj1 (one_timer_without_accepted_cancel Sample.browser _ _ H1 H2)).
Defined.

(** An event up to its [await] stores no task id and touches no timer. *)
Lemma fire_keeps_task (e : Event) (w : World) :
  taskId (ui (snd (fire e w))) = taskId (ui w)
  /\ intervals (rt (snd (fire e w))) = intervals (rt w).
Proof.
  assert (Hr : taskId (ui (snd (handleRun_begin w))) = taskId (ui w)
               /\ intervals (rt (snd (handleRun_begin w))) = intervals (rt w)).
  { run_halves. run_handler.
    destruct (JS.truthy (JS.trim (task (ui w)))); cbn; [| split; reflexivity].
    destruct (nextReply (runReplies (net w))); split; reflexivity. }
  assert (Hv : taskId (ui (snd (handleRunWithVisibleBrowser_begin w)))
               = taskId (ui w)
               /\ intervals (rt (snd (handleRunWithVisibleBrowser_begin w)))
                  = intervals (rt w)).
  { run_halves. run_handler.
    destruct (JS.truthy (JS.trim (task (ui w)))); cbn; [| split; reflexivity].
    destruct (nextReply (taskReplies (net w))); split; reflexivity. }
  destruct e as [value | key shiftKey | | | | h];
    unfold fire, handleKeyDown_begin, bind, read; cbn.
  - destruct (loading (ui w)); split; reflexivity.
  - destruct (loading (ui w)); [split; reflexivity |].
    destruct (String.eqb key "Enter" && negb shiftKey); [| split; reflexivity].
    destruct (showBrowser (ui w)); assumption.
  - split; reflexivity.
  - destruct (loading (ui w) || negb (JS.truthy (JS.trim (task (ui w)))));
      [split; reflexivity |].
    destruct (showBrowser (ui w)); assumption.
  - destruct (loading (ui w) && taskIdTruthy (ui w)); [| split; reflexivity].
    run_halves. run_handler.
    destruct (taskId (ui w)) as [tid |] eqn:E; cbn; [| rewrite E; split; reflexivity].
    destruct (JS.truthy tid); cbn; [| rewrite E; split; reflexivity].
    destruct (nextReply (cancelReplies (net w))); cbn; rewrite E;
      split; reflexivity.
  - destruct (find (fun t => Nat.eqb (handle t) h) (intervals (rt w)));
      [| split; reflexivity].
    run_halves. run_handler. cbn.
    destruct (nextReply (statusReplies (net w))); split; reflexivity.
Qed.

(** The rest of a handler stores a task id only together with its
    timer, and removes a timer only together with the stored id. *)
Lemma resume_polledTask (c : Pending) (w : World) :
  polledTask w -> polledTask (snd (resume c w)).
Proof.
  intros Hw tid. destruct c as [l o | l o | t o | o]; run_halves; run_handler.
  - destruct o as [result |]; cbn; apply Hw.
  - destruct o as [newId |]; cbn; [| apply Hw].
    intros E. injection E as <-.
    eexists. split; [apply in_or_app; right; left; reflexivity | reflexivity].
  - destruct o as [snapshot |]; cbn; [| discriminate].
    destruct (terminal (status snapshot)); cbn; [discriminate | apply Hw].
  - destruct o as [response |]; cbn; [discriminate | apply Hw].
Qed.

Lemma act_polledTask (a : Action) (p : Page) :
  polledTask (world p) -> polledTask (world (act a p)).
Proof.
  intros Hp. destruct a as [e | k]; unfold act.
  - destruct (fire_keeps_task e (world p)) as [Ht Hi].
    destruct (fire e (world p)) as [[[c |] | err] w1]; cbn in *;
      intros tid E; rewrite Ht in E; rewrite Hi; exact (Hp tid E).
  - destruct (nth_error (inflight p) k) as [c |]; [| exact Hp].
    cbn. apply resume_polledTask. exact Hp.
Qed.

(** X20: in every state the page can reach from the first render,
    under every interleaving of the events of the view with the replies
    to the requests in flight, whenever a task id is stored a timer
    polling that very task is active. *)
Theorem stored_task_is_polled (r : Runtime) (n : Network)
    (acts : list Action) :
  forall tid,
    taskId (ui (world (play acts (quiet (initial r n))))) = Some tid ->
    exists t, In t (intervals (rt (world (play acts (quiet (initial r n))))))
              /\ newTaskId t = tid.
Proof.
  change (polledTask (world (play acts (quiet (initial r n))))).
  assert (H0 : polledTask (world (quiet (initial r n))))
    by (intros tid E; discriminate E).
  revert H0. generalize (quiet (initial r n)) as p.
  induction acts as [| a acts IH]; intros p Hp; [exact Hp |].
  unfold play. simpl. apply IH. apply act_polledTask. exact Hp.
Qed.

Lemma stored_task_is_polled_witness :
  taskId (ui (world (play
    [Does (Change "open example.com"); Does ClickToggle; Does ClickRun;
     Settles 0; Does (TimerFires 0); Does (TimerFires 0); Settles 1]
    (quiet (initial Sample.browser
              (Sample.service [] [Some (Sample.created "abc")]
                 [Some (Sample.snapshot "running" [] None);
                  Some (Sample.snapshot "running" [] None)] []))))))
  = Some "abc"
  /\ exists t,
       In t (intervals (rt (world (play
         [Does (Change "open example.com"); Does ClickToggle; Does ClickRun;
          Settles 0; Does (TimerFires 0); Does (TimerFires 0); Settles 1]
         (quiet (initial Sample.browser
                   (Sample.service [] [Some (Sample.created "abc")]
                      [Some (Sample.snapshot "running" [] None);
                       Some (Sample.snapshot "running" [] None)] [])))))))
       /\ newTaskId t = "abc".
Proof.
  assert (H : taskId (ui (world (play
    [Does (Change "open example.com"); Does ClickToggle; Does ClickRun;
     Settles 0; Does (TimerFires 0); Does (TimerFires 0); Settles 1]
    (quiet (initial Sample.browser
              (Sample.service [] [Some (Sample.created "abc")]
                 [Some (Sample.snapshot "running" [] None);
                  Some (Sample.snapshot "running" [] None)] []))))))
    = Some "abc") by reflexivity.
  split; [exact H |].
  exact (stored_task_is_polled Sample.browser
           (Sample.service [] [Some (Sample.created "abc")]
              [Some (Sample.snapshot "running" [] None);
               Some (Sample.snapshot "running" [] None)] [])
           [Does (Change "open example.com"); Does ClickToggle; Does ClickRun;
            Settles 0; Does (TimerFires 0); Does (TimerFires 0); Settles 1]
           "abc" H).
Defined.

(** X21: the request log only grows, and by at most one request per
    event: typing and the toggle issue none, a submission or a cancel at
    most one, a timer one status request per firing. *)
Theorem one_request_per_event (e : Event) (w : World) :
  exists l, requests (net (step e w)) = (requests (net w) ++ l)%list
            /\ length l <= 1
            /\ (forall value, e = Change value -> l = [])
            /\ (e = ClickToggle -> l = []).
Proof.
  assert (H0 : exists l, requests (net w) = (requests (net w) ++ l)%list
                         /\ length l <= 1
                         /\ (forall value, e = Change value -> l = [])
                         /\ (e = ClickToggle -> l = [])).
  { exists []. rewrite app_nil_r. repeat split. simpl. lia. }
  assert (Hrun : forall e', (forall v, e' <> Change v) -> e' <> ClickToggle ->
            exists l, requests (net (snd (handleRun w)))
                      = (requests (net w) ++ l)%list
                      /\ length l <= 1
                      /\ (forall value, e' = Change value -> l = [])
                      /\ (e' = ClickToggle -> l = [])).
  { intros e' N1 N2. run_handler.
    destruct (JS.truthy (JS.trim (task (ui w)))); cbn;
      [destruct (nextReply (runReplies (net w))); cbn;
         eexists; (split; [reflexivity |]) |
       exists []; rewrite app_nil_r; (split; [reflexivity |])];
      (split; [simpl; lia |]);
      (split; [intros v E; destruct (N1 v E) | intros E; destruct (N2 E)]). }
  assert (Hvis : forall e', (forall v, e' <> Change v) -> e' <> ClickToggle ->
            exists l, requests (net (snd (handleRunWithVisibleBrowser w)))
                      = (requests (net w) ++ l)%list
                      /\ length l <= 1
                      /\ (forall value, e' = Change value -> l = [])
                      /\ (e' = ClickToggle -> l = [])).
  { intros e' N1 N2. run_handler.
    destruct (JS.truthy (JS.trim (task (ui w)))); cbn;
      [destruct (nextReply (taskReplies (net w))); cbn;
         eexists; (split; [reflexivity |]) |
       exists []; rewrite app_nil_r; (split; [reflexivity |])];
      (split; [simpl; lia |]);
      (split; [intros v E; destruct (N1 v E) | intros E; destruct (N2 E)]). }
  rewrite step_dispatch. unfold dispatch, bind, read.
  destruct e as [value | key shiftKey | | | | h]; cbn.
  - destruct (loading (ui w)); exact H0.
  - destruct (loading (ui w)); [exact H0 |].
    unfold handleKeyDown, bind, read.
    destruct (String.eqb key "Enter" && negb shiftKey); [| exact H0].
    destruct (showBrowser (ui w)); [apply Hvis | apply Hrun]; discriminate.
  - exact H0.
  - destruct (loading (ui w)); [exact H0 |]. cbn.
    destruct (negb (JS.truthy (JS.trim (task (ui w))))); [exact H0 |].
    destruct (showBrowser (ui w)); [apply Hvis | apply Hrun]; discriminate.
  - destruct (loading (ui w) && taskIdTruthy (ui w)); [| exact H0].
    run_handler.
    destruct (taskId (ui w)) as [tid |]; cbn; [| exact H0].
    destruct (JS.truthy tid); cbn; [| exact H0].
    destruct (nextReply (cancelReplies (net w))); cbn;
      eexists; (split; [reflexivity |]); (split; [simpl; lia |]);
      split; discriminate.
  - destruct (find (fun t => Nat.eqb (handle t) h) (intervals (rt w))) as [t |];
      [| exact H0].
    run_handler. cbn.
    destruct (nextReply (statusReplies (net w))) as [snapshot |]; cbn;
      [destruct (terminal (status snapshot)); cbn |];
      eexists; (split; [reflexivity |]); (split; [simpl; lia |]);
      split; discriminate.
Qed.

End Handlers.
